(** * streamlit-openai-chat: a shallow embedding of [app.py]

    The script of [app.py] is re-run by Streamlit from top to bottom on every
    user interaction.  One run is embedded here as a computation over a
    [world]: the session state that survives between runs, the sequence of
    elements written to the page, and the requests handed to the OpenAI
    client.  Everything the run reads from outside (secrets, process
    environment, widget values, the behaviour of the streaming endpoint) is
    gathered in an [environment]. *)

From Stdlib Require Import QArith.
From stdpp Require Import base option list strings gmap.


(** ** Python idioms *)

Module Py.

(** Truthiness of a [str]: the empty string is falsy. *)
Definition truthy_str (s : string) : bool := negb (String.eqb s "").

(** Truthiness of an [Optional[str]]: [None] and [""] are falsy. *)
Definition truthy (o : option string) : bool :=
  match o with
  | Some s => truthy_str s
  | None => false
  end.

(** [a or b]. *)
Definition or (a b : option string) : option string :=
  if truthy a then a else b.

End Py.

(** ** Data *)

(** A chat message, the dict [{"role": ..., "content": ...}]. *)
Record message := Message { role : string; content : string }.

(** [st.session_state]: attributes are absent until first assigned. *)
Record session_state := SessionState {
  messages : option (list message);
  model : option string;
  temperature : option Q;
  verbosity : option string;
  reasoning_effort : option string
}.

(** The keyword arguments of [client.responses.stream]. *)
Record request := Request {
  rq_model : string;
  rq_input : list message;
  rq_text_verbosity : string;       (* text={"verbosity": ...} *)
  rq_reasoning_effort : string      (* reasoning={"effort": ...} *)
}.

(** An event of the response stream.  Only [type] and, for text deltas,
    [delta] are read by the script. *)
Record event := Event { type : string; delta : string }.

(** What iterating the stream produces at each step: the next event, or an
    exception (carried as its message). *)
Inductive stream_item :=
| Yield (ev : event)
| Raise (err : string).

(** What entering [with client.responses.stream(...) as stream] produces: an
    exception, or a stream whose iteration goes through [items] and is then
    exhausted. *)
Inductive connection :=
| Refused (err : string)
| Opened (items : list stream_item).

(** Elements written to the page, in order. *)
Inductive ui_action :=
| PageConfig
| Title (text : string)
| Subheader (text : string)
| Divider
| SidebarTitle (text : string)
| SidebarDivider
| ChatMessage (who : string)         (* with st.chat_message(who): *)
| Markdown (text : string)           (* st.markdown(text) *)
| Empty                              (* placeholder = st.empty() *)
| PlaceholderMarkdown (text : string)(* placeholder.markdown(text) *)
| Error (text : string).             (* st.error(text) *)

(** The client returned by [OpenAI(api_key=...)]; the argument is an
    [Optional[str]]. *)
Record OpenAI := Client { api_key : option string }.

(** Everything one run of the script reads from outside. *)
Record environment := Environment {
  secrets : option (gmap string string);   (* .streamlit/secrets.toml, if there is one *)
  environ : gmap string string;            (* os.environ when the run starts *)
  selected_model : string;                 (* value of the "Model" selectbox *)
  selected_verbosity : string;             (* value of the "Verbosity" selectbox *)
  selected_reasoning_effort : string;      (* value of the "Reasoning effort" selectbox *)
  clean_chat_clicked : bool;               (* value of the "Clean chat" button *)
  chat_input : option string;              (* value of st.chat_input *)
  endpoint : OpenAI -> request -> connection (* behaviour of the Responses API *)
}.

Record world := World {
  session : session_state;
  ui : list ui_action;
  outbox : list request
}.

(** ** The script monad *)

(** How a piece of the script ends: it returns a value, it calls [st.stop()]
    or [st.rerun()] (both abandon the current run), or it raises an
    exception. *)
Inductive outcome (A : Type) :=
| Returned (a : A)
| Stopped
| Rerun
| Raised (err : string).
Arguments Returned {A} a.
Arguments Stopped {A}.
Arguments Rerun {A}.
Arguments Raised {A} err.

Definition script (A : Type) : Type := world -> outcome A * world.

#[global] Instance script_ret : MRet script :=
  fun A (a : A) w => (Returned a, w).

#[global] Instance script_bind : MBind script :=
  fun A B (k : A -> script B) (m : script A) w =>
    match m w with
    | (Returned a, w') => k a w'
    | (Stopped, w') => (Stopped, w')
    | (Rerun, w') => (Rerun, w')
    | (Raised e, w') => (Raised e, w')
    end.

Definition raise {A} (err : string) : script A := fun w => (Raised err, w).

(** [try: body except Exception as e: handler e].  [st.stop()] and
    [st.rerun()] are not [Exception]s and pass through. *)
Definition try_except {A} (body : script A) (handler : string -> script A) : script A :=
  fun w =>
    match body w with
    | (Raised e, w') => handler e w'
    | r => r
    end.

(** *** Primitives *)

Definition emit (a : ui_action) : script unit :=
  fun w => (Returned tt, World (session w) (ui w ++ [a]) (outbox w)).

Definition st_stop {A} : script A := fun w => (Stopped, w).
Definition st_rerun {A} : script A := fun w => (Rerun, w).

(** Reading an attribute of [st.session_state]; an absent one raises. *)
Definition read {A} (name : string) (field : session_state -> option A) : script A :=
  fun w =>
    match field (session w) with
    | Some a => (Returned a, w)
    | None => (Raised ("AttributeError: st.session_state has no attribute " +:+ name), w)
    end.

Definition modify (f : session_state -> session_state) : script unit :=
  fun w => (Returned tt, World (f (session w)) (ui w) (outbox w)).

Definition set_messages (ms : list message) (s : session_state) : session_state :=
  SessionState (Some ms) (model s) (temperature s) (verbosity s) (reasoning_effort s).
Definition set_model (m : string) (s : session_state) : session_state :=
  SessionState (messages s) (Some m) (temperature s) (verbosity s) (reasoning_effort s).
Definition set_temperature (t : Q) (s : session_state) : session_state :=
  SessionState (messages s) (model s) (Some t) (verbosity s) (reasoning_effort s).
Definition set_verbosity (v : string) (s : session_state) : session_state :=
  SessionState (messages s) (model s) (temperature s) (Some v) (reasoning_effort s).
Definition set_reasoning_effort (r : string) (s : session_state) : session_state :=
  SessionState (messages s) (model s) (temperature s) (verbosity s) (Some r).

(** [st.session_state.messages.append(msg)]. *)
Definition messages_append (msg : message) : script unit :=
  ms ← read "messages" messages;
  modify (set_messages (ms ++ [msg])).

(** Entering [with client.responses.stream(...) as stream], the keyword
    arguments being those of [rq]: the request goes out, and the endpoint
    answers with a stream or an exception. *)
Definition responses_stream (env : environment) (client : OpenAI) (rq : request)
  : script (list stream_item) :=
  fun w =>
    let w' := World (session w) (ui w) (outbox w ++ [rq]) in
    match endpoint env client rq with
    | Refused e => (Raised e, w')
    | Opened items => (Returned items, w')
    end.

(** [for x in xs: body x], over a Python list. *)
Fixpoint for_each {A} (xs : list A) (body : A -> script unit) : script unit :=
  match xs with
  | [] => mret tt
  | x :: xs' => body x ;; for_each xs' body
  end.

(** [name not in st.session_state]. *)
Definition absent {A} (field : option A) : bool :=
  match field with
  | Some _ => false
  | None => true
  end.

(** ** Helper functions of [app.py] *)

(** [st.secrets.get(name)].  The first access to [st.secrets] loads
    [.streamlit/secrets.toml]: without such a file it raises; with one, it
    also copies every secret into [os.environ], over a variable of the same
    name, and then answers like [Mapping.get], with [None] for a missing
    name. *)
Definition no_secrets_file : string := "StreamlitSecretNotFoundError".

Definition secrets_get (env : environment) (name : string) : script (option string) :=
  match secrets env with
  | None => raise no_secrets_file
  | Some file => mret (file !! name)
  end.

(** [os.getenv(name)] once [st.secrets] has been read: the secrets have
    been copied over the variables the process started with. *)
Definition os_getenv (env : environment) (name : string) : option string :=
  (default ∅ (secrets env) ∪ environ env) !! name.

(** [get_client] (lines 44-60). *)
Definition get_client (env : environment) : script OpenAI :=
  secret ← secrets_get env "OPENAI_API_KEY";
  let api_key := Py.or secret (os_getenv env "OPENAI_API_KEY") in
  (if negb (Py.truthy api_key) then
     emit (Error "⚠️ Missing API key. Set OPENAI_API_KEY in .streamlit/secrets.toml or as an env var.") ;;
     st_stop
   else mret tt) ;;
  mret (Client api_key).

(** [init_state] (lines 63-80). *)
Definition init_state : script unit :=
  modify (fun s => if absent (messages s) then set_messages [] s else s) ;;
  modify (fun s => if absent (model s) then set_model "gpt-5-nano" s else s) ;;
  modify (fun s => if absent (temperature s) then set_temperature (1 # 2)%Q s else s).

(** [render_sidebar] (lines 83-122).  Each selectbox returns the option the
    user has selected, which the environment supplies. *)
Definition model_options : list string := ["gpt-5-nano"; "gpt-5-mini"; "gpt-5"].
Definition verbosity_options : list string := ["low"; "medium"; "high"].
Definition reasoning_effort_options : list string := ["minimal"; "low"; "medium"; "high"].

Definition render_sidebar (env : environment) : script unit :=
  emit (SidebarTitle "⚙️ Parameters") ;;
  emit SidebarDivider ;;
  modify (set_model (selected_model env)) ;;
  modify (set_verbosity (selected_verbosity env)) ;;
  modify (set_reasoning_effort (selected_reasoning_effort env)) ;;
  if clean_chat_clicked env then
    modify (set_messages []) ;;
    st_rerun
  else mret tt.

(** [render_history] (lines 125-134). *)
Definition render_history : script unit :=
  ms ← read "messages" messages;
  for_each ms (fun msg =>
    emit (ChatMessage (role msg)) ;;
    emit (Markdown (content msg))).

(** [append_and_render_user] (lines 137-149). *)
Definition append_and_render_user (prompt : string) : script unit :=
  messages_append (Message "user" prompt) ;;
  emit (ChatMessage "user") ;;
  emit (Markdown prompt).

(** The loop [for event in stream] (lines 178-181), threading the local
    variable [full_text].  It returns the accumulated text together with what
    is left of the stream, which is nothing when the loop ends normally. *)
Fixpoint for_events (stream : list stream_item) (full_text : string)
  : script (string * list stream_item) :=
  match stream with
  | [] => mret (full_text, [])
  | Raise err :: _ => raise err
  | Yield event :: stream' =>
      if String.eqb (type event) "response.output_text.delta" then
        let full_text := full_text +:+ delta event in
        emit (PlaceholderMarkdown full_text) ;;
        for_events stream' full_text
      else for_events stream' full_text
  end.

(** [stream.until_done()] (line 182): consumes whatever the stream still
    holds, without looking at the events. *)
Fixpoint until_done (stream : list stream_item) : script unit :=
  match stream with
  | [] => mret tt
  | Raise err :: _ => raise err
  | Yield _ :: stream' => until_done stream'
  end.

(** [stream_response] (lines 152-186).  The [try] body yields the value of
    [full_text] that the final [return full_text] hands back; the handler
    yields the value of its own [return]. *)
Definition stream_response (env : environment) (client : OpenAI)
    (messages : list message) (model verbosity reasoning_effort : string)
  : script string :=
  let full_text := "" in
  emit (ChatMessage "assistant") ;;
  emit Empty ;;
  try_except
    (stream ← responses_stream env client
                (Request model messages verbosity reasoning_effort);
     '(full_text, stream) ← for_events stream full_text;
     until_done stream ;;
     mret full_text)
    (fun e =>
       emit (Error ("❌ Error while generating: " +:+ e)) ;;
       mret "").

(** ** Main app (lines 192-224) *)

(** The body of [if prompt:] (lines 208-224). *)
Definition on_prompt (env : environment) (client : OpenAI) (prompt : string)
  : script unit :=
  append_and_render_user prompt ;;
  ms ← read "messages" messages;
  let input_messages := (fun m => Message (role m) (content m)) <$> ms in
  model ← read "model" model;
  verbosity ← read "verbosity" verbosity;
  reasoning_effort ← read "reasoning_effort" reasoning_effort;
  output_text ← stream_response env client input_messages
                  model verbosity reasoning_effort;
  if Py.truthy_str output_text then
    messages_append (Message "assistant" output_text)
  else mret tt.

Definition main (env : environment) : script unit :=
  emit PageConfig ;;
  init_state ;;
  client ← get_client env;
  emit (Title "🤖 Chat with OpenAI API") ;;
  emit (Subheader "A simple chat interface using the Responses API (streaming)") ;;
  render_sidebar env ;;
  emit Divider ;;
  render_history ;;
  match chat_input env with
  | Some prompt =>
      if Py.truthy_str prompt then on_prompt env client prompt else mret tt
  | None => mret tt
  end.

(** A session that has not run the script yet, and the world around it. *)
Definition fresh_session : session_state := SessionState None None None None None.
Definition fresh_world : world := World fresh_session [] [].

(** ** Vocabulary of the properties *)

(** Concatenation [f1 + f2 + ... + fN]. *)
Definition join (fs : list string) : string := foldr String.append "" fs.

(** [carries evs fs]: the events [evs] contain text-fragment events with
    payloads [fs], in that order, and otherwise only events of other types. *)
Inductive carries : list event -> list string -> Prop :=
| carries_nil : carries [] []
| carries_fragment ev evs fs :
    type ev = "response.output_text.delta" ->
    carries evs fs ->
    carries (ev :: evs) (delta ev :: fs)
| carries_other ev evs fs :
    type ev <> "response.output_text.delta" ->
    carries evs fs ->
    carries (ev :: evs) fs.

(** The payloads of the text-fragment events of [evs], computed. *)
Definition fragments (evs : list event) : list string :=
  delta <$> filter (fun ev => type ev = "response.output_text.delta") evs.

(** The concatenation of the first [k] fragments. *)
Definition prefix_at (fs : list string) (k : nat) : string := join (take k fs).

(** The prefixes ["", f1, f1+f2, ..., f1+...+fN]. *)
Definition all_prefixes (fs : list string) : list string :=
  prefix_at fs <$> seq 0 (S (length fs)).

(** The prefixes [f1, f1+f2, ..., f1+...+fN]. *)
Definition proper_prefixes (fs : list string) : list string :=
  prefix_at fs <$> seq 1 (length fs).

(** The values passed to [placeholder.markdown], and the texts passed to
    [st.error], among some page elements. *)
Definition rendered (acts : list ui_action) : list string :=
  omap (fun a => match a with PlaceholderMarkdown t => Some t | _ => None end) acts.
Definition errors (acts : list ui_action) : list string :=
  omap (fun a => match a with Error t => Some t | _ => None end) acts.

(** What a run has added to the page. *)
Definition ui_since (before after : world) : list ui_action :=
  drop (length (ui before)) (ui after).

(** The exception a connection ends with, if any: refused on opening, or
    raised while its events are read. *)
Fixpoint first_raise (items : list stream_item) : option string :=
  match items with
  | [] => None
  | Raise err :: _ => Some err
  | Yield _ :: items' => first_raise items'
  end.
Definition failure (c : connection) : option string :=
  match c with
  | Refused err => Some err
  | Opened items => first_raise items
  end.

(** The events a connection delivers before it ends or raises. *)
Fixpoint yielded_items (items : list stream_item) : list event :=
  match items with
  | Yield ev :: items' => ev :: yielded_items items'
  | _ => []
  end.
Definition yielded (c : connection) : list event :=
  match c with
  | Refused _ => []
  | Opened items => yielded_items items
  end.

(** The event that announces the end of a response. *)
Definition completed : event := Event "response.completed" "".

(** The transcript of a session; a session that has not run yet has none. *)
Definition transcript (w : world) : list message :=
  default [] (messages (session w)).

(** The key the credential lookup resolves to, and whether it finds one. *)
Definition credential (env : environment) : option string :=
  match secrets env with
  | Some file => Py.or (file !! "OPENAI_API_KEY") (os_getenv env "OPENAI_API_KEY")
  | None => None
  end.
Definition has_credential (env : environment) : bool := Py.truthy (credential env).

(** The session once the defaults are in place, and once the sidebar
    selections are stored. *)
Definition initialised (s : session_state) : session_state :=
  SessionState (Some (default [] (messages s)))
               (Some (default "gpt-5-nano" (model s)))
               (Some (default (1 # 2)%Q (temperature s)))
               (verbosity s) (reasoning_effort s).
Definition configured (env : environment) (s : session_state) : session_state :=
  SessionState (messages s) (Some (selected_model env)) (temperature s)
               (Some (selected_verbosity env)) (Some (selected_reasoning_effort env)).

(** The page elements above the chat, and the replay of a transcript. *)
Definition header_ui : list ui_action :=
  [PageConfig;
   Title "🤖 Chat with OpenAI API";
   Subheader "A simple chat interface using the Responses API (streaming)";
   SidebarTitle "⚙️ Parameters";
   SidebarDivider].
Definition history_ui (ms : list message) : list ui_action :=
  ms ≫= fun msg => [ChatMessage (role msg); Markdown (content msg)].

(** A run in which the user submits [prompt]: the key is found, the
    "Clean chat" button is not the widget that triggered the run, and the chat
    input holds the non-empty [prompt]. *)
Definition submits (env : environment) (prompt : string) : Prop :=
  has_credential env = true /\ clean_chat_clicked env = false /\
  chat_input env = Some prompt /\ prompt <> "".

(** The request a submission of [prompt] builds in the world [w]. *)
Definition request_for (env : environment) (w : world) (prompt : string) : request :=
  Request (selected_model env) (transcript w ++ [Message "user" prompt])
          (selected_verbosity env) (selected_reasoning_effort env).

(** Two sessions, and two worlds, that differ at most in [temperature]. *)
Definition same_but_temperature (s1 s2 : session_state) : Prop :=
  messages s1 = messages s2 /\ model s1 = model s2 /\
  verbosity s1 = verbosity s2 /\ reasoning_effort s1 = reasoning_effort s2.
Definition agree (w1 w2 : world) : Prop :=
  same_but_temperature (session w1) (session w2) /\
  ui w1 = ui w2 /\ outbox w1 = outbox w2.

(** The texts passed to [st.markdown], and the roles passed to
    [st.chat_message], among some page elements. *)
Definition markdowns (acts : list ui_action) : list string :=
  omap (fun a => match a with Markdown t => Some t | _ => None end) acts.

(** The world after a sequence of runs of the script, one per environment. *)
Definition runs (envs : list environment) (w : world) : world :=
  foldl (fun w env => (main env w).2) w envs.

(** Transcripts made of turns: a user message with a non-empty prompt,
    followed or not by an assistant message with a non-empty reply. *)
Inductive conversation : list message -> Prop :=
| conversation_nil : conversation []
| conversation_prompt ms prompt :
    conversation ms -> prompt <> "" ->
    conversation (ms ++ [Message "user" prompt])
| conversation_exchange ms prompt reply :
    conversation ms -> prompt <> "" -> reply <> "" ->
    conversation (ms ++ [Message "user" prompt; Message "assistant" reply]).

(** A request whose input is a conversation that ends with a user message. *)
Definition asks (rq : request) : Prop :=
  conversation (rq_input rq) /\
  exists prompt, last (rq_input rq) = Some (Message "user" prompt).

(** A message with one of the two roles and a non-empty content. *)
Definition well_formed (msg : message) : Prop :=
  (role msg = "user" \/ role msg = "assistant") /\ content msg <> "".

(** ** Sample runs *)

Module Sample.

Definition fragment (text : string) : event := Event "response.output_text.delta" text.
Definition created : event := Event "response.created" "".

(** An environment with a key in the secrets store, a submitted prompt and
    an endpoint that answers every request with the connection [c]. *)
Definition env (c : connection) (prompt : option string) (clean : bool) : environment :=
  Environment (Some {[ "OPENAI_API_KEY" := "sk-test" ]}) ∅
              "gpt-5-nano" "low" "minimal" clean prompt (fun _ _ => c).

Definition hello : connection :=
  Opened (Yield <$> [created; fragment "Hel"; created; fragment "lo"; completed]).
Definition hello_cut : connection :=
  Opened [Yield created; Yield (fragment "Hel"); Yield (fragment "lo"); Raise "connection reset"].
Definition silent : connection := Opened [Yield created; Yield completed].
Definition ab_truncated : connection := Opened (Yield <$> [fragment "A"; fragment "B"]).

Definition client : OpenAI := Client (Some "sk-test").


(** A session in which the script has run once. *)
Definition ready : world :=
  World (SessionState (Some []) (Some "gpt-5-nano") (Some (1 # 2)%Q)
                      (Some "low") (Some "minimal")) [] [].

End Sample.

(** * Properties *)

(** ** Strings *)

Lemma append_nil_r (s : string) : s +:+ "" = s.
Proof. induction s as [|a s IH]; [reflexivity|]. change (String a (s +:+ "") = String a s). by rewrite IH. Qed.

Lemma append_assoc (s t u : string) : (s +:+ t) +:+ u = s +:+ (t +:+ u).
Proof.
  induction s as [|a s IH]; [reflexivity|].
  change (String a ((s +:+ t) +:+ u) = String a (s +:+ (t +:+ u))). by rewrite IH.
Qed.

Lemma join_cons (f : string) (fs : list string) : join (f :: fs) = f +:+ join fs.
Proof. reflexivity. Qed.


Lemma truthy_str_spec (s : string) : Py.truthy_str s = true <-> s <> "".
Proof.
  unfold Py.truthy_str. destruct (String.eqb_spec s "") as [->|Hne]; simpl.
  - split; [discriminate | congruence].
  - split; auto.
Qed.

Lemma truthy_str_false (s : string) : Py.truthy_str s = false <-> s = "".
Proof.
  unfold Py.truthy_str. destruct (String.eqb_spec s "") as [->|Hne]; simpl.
  - split; auto.
  - split; [discriminate | congruence].
Qed.

(** ** Fragments of an event sequence *)

Lemma fragments_cons_delta ev evs :
  type ev = "response.output_text.delta" ->
  fragments (ev :: evs) = delta ev :: fragments evs.
Proof. intros H. unfold fragments. by rewrite filter_cons_True. Qed.

Lemma fragments_cons_other ev evs :
  type ev <> "response.output_text.delta" ->
  fragments (ev :: evs) = fragments evs.
Proof. intros H. unfold fragments. by rewrite filter_cons_False. Qed.

Lemma fragments_app evs evs' : fragments (evs ++ evs') = fragments evs ++ fragments evs'.
Proof. unfold fragments. by rewrite filter_app, fmap_app. Qed.

Lemma carries_fragments evs : carries evs (fragments evs).
Proof.
  induction evs as [|ev evs IH]; [constructor|].
  destruct (decide (type ev = "response.output_text.delta")) as [H|H].
  - rewrite fragments_cons_delta by done. by constructor.
  - rewrite fragments_cons_other by done. by constructor.
Qed.

Lemma carries_inv evs fs : carries evs fs -> fs = fragments evs.
Proof.
  induction 1 as [|ev evs fs H _ IH|ev evs fs H _ IH].
  - reflexivity.
  - rewrite fragments_cons_delta by done. by rewrite IH.
  - by rewrite fragments_cons_other.
Qed.

(** ** Prefixes *)

Lemma proper_prefixes_cons (f : string) (fs : list string) :
  proper_prefixes (f :: fs) = f :: (String.append f <$> proper_prefixes fs).
Proof.
  unfold proper_prefixes. cbn [length seq fmap list_fmap].
  f_equal.
  - unfold prefix_at. cbn [take]. rewrite join_cons. apply append_nil_r.
  - rewrite <- seq_shift, <- !list_fmap_compose. apply list_fmap_ext.
    intros _ k _. reflexivity.
Qed.

Lemma all_prefixes_proper (fs : list string) : all_prefixes fs = "" :: proper_prefixes fs.
Proof. reflexivity. Qed.

Lemma last_proper_prefixes (f : string) (fs : list string) :
  last (proper_prefixes (f :: fs)) = Some (join (f :: fs)).
Proof.
  unfold proper_prefixes. rewrite fmap_last.
  cbn [length]. rewrite seq_S, last_snoc. cbn [fmap option_fmap option_map].
  unfold prefix_at. rewrite take_ge; [done | cbn; lia].
Qed.

(** ** The script monad *)

Lemma bind_unfold {A B} (m : script A) (k : A -> script B) (w : world) :
  (m ≫= k) w =
  match m w with
  | (Returned a, w') => k a w'
  | (Stopped, w') => (Stopped, w')
  | (Rerun, w') => (Rerun, w')
  | (Raised e, w') => (Raised e, w')
  end.
Proof. reflexivity. Qed.

Lemma bind_returned {A B} (m : script A) (k : A -> script B) (w w' : world) (a : A) :
  m w = (Returned a, w') -> (m ≫= k) w = k a w'.
Proof. intros H. by rewrite bind_unfold, H. Qed.

Lemma bind_raised {A B} (m : script A) (k : A -> script B) (w w' : world) (e : string) :
  m w = (Raised e, w') -> (m ≫= k) w = (Raised e, w').
Proof. intros H. by rewrite bind_unfold, H. Qed.

Lemma emit_unfold (a : ui_action) (w : world) :
  emit a w = (Returned tt, World (session w) (ui w ++ [a]) (outbox w)).
Proof. reflexivity. Qed.

(** ** The event loop *)

(** Reading a stream of events to its end: the accumulated text grows by the
    fragments, and every intermediate value is rendered. *)
Lemma for_events_exhausted (evs : list event) (full_text : string) (w : world) :
  for_events (Yield <$> evs) full_text w =
  (Returned (full_text +:+ join (fragments evs), []),
   World (session w)
         (ui w ++ (PlaceholderMarkdown <$>
                    (String.append full_text <$> proper_prefixes (fragments evs))))
         (outbox w)).
Proof.
  revert full_text w. induction evs as [|ev evs IH]; intros full_text w.
  - cbn. rewrite append_nil_r, app_nil_r. by destruct w.
  - cbn [fmap list_fmap for_events].
    destruct (String.eqb_spec (type ev) "response.output_text.delta") as [H|H].
    + erewrite bind_returned by apply emit_unfold.
      rewrite IH. cbn [session ui outbox].
      rewrite fragments_cons_delta, proper_prefixes_cons by done.
      rewrite join_cons, append_assoc. do 2 f_equal.
      rewrite <- app_assoc. f_equal. cbn [fmap list_fmap app]. do 2 f_equal.
      rewrite <- !list_fmap_compose. apply list_fmap_ext.
      intros _ p _. cbn. by rewrite append_assoc.
    + rewrite IH. by rewrite fragments_cons_other.
Qed.

(** Reading a stream that raises after the events [evs]. *)
Lemma for_events_raised (evs : list event) (err : string) (rest : list stream_item)
    (full_text : string) (w : world) :
  for_events ((Yield <$> evs) ++ Raise err :: rest) full_text w =
  (Raised err,
   World (session w)
         (ui w ++ (PlaceholderMarkdown <$>
                    (String.append full_text <$> proper_prefixes (fragments evs))))
         (outbox w)).
Proof.
  revert full_text w. induction evs as [|ev evs IH]; intros full_text w.
  - cbn. rewrite app_nil_r. by destruct w.
  - cbn [fmap list_fmap for_events app].
    destruct (String.eqb_spec (type ev) "response.output_text.delta") as [H|H].
    + erewrite bind_returned by apply emit_unfold.
      rewrite IH. cbn [session ui outbox].
      rewrite fragments_cons_delta, proper_prefixes_cons by done.
      do 2 f_equal.
      rewrite <- app_assoc. f_equal. cbn [fmap list_fmap app]. do 2 f_equal.
      rewrite <- !list_fmap_compose. apply list_fmap_ext.
      intros _ p _. cbn. by rewrite append_assoc.
    + rewrite IH. by rewrite fragments_cons_other.
Qed.

(** Every stream either yields events to its end or raises after some. *)
Lemma stream_cases (items : list stream_item) :
  (exists evs, items = Yield <$> evs /\ first_raise items = None) \/
  (exists evs err rest,
      items = (Yield <$> evs) ++ Raise err :: rest /\ first_raise items = Some err).
Proof.
  induction items as [|[ev|err] items IH].
  - left. by exists [].
  - destruct IH as [(evs & -> & H)|(evs & e & rest & -> & H)].
    + left. by exists (ev :: evs).
    + right. by exists (ev :: evs), e, rest.
  - right. by exists [], err, items.
Qed.

(** ** [stream_response], case by case *)

Ltac run_script :=
  unfold mbind, script_bind, mret, script_ret, emit, modify, read, raise,
    st_stop, st_rerun, set_messages, set_model, set_temperature,
    set_verbosity, set_reasoning_effort;
  cbn [session ui outbox messages model temperature verbosity reasoning_effort
       fst snd].

Section StreamResponse.

Variables (env : environment) (client : OpenAI).
Variables (ms : list message) (m v r : string).

Lemma fmap_append_empty (ps : list string) : String.append "" <$> ps = ps.
Proof. induction ps as [|p ps IH]; [done|]. cbn. by rewrite IH. Qed.

Lemma stream_response_success (evs : list event) (w : world) :
  endpoint env client (Request m ms v r) = Opened (Yield <$> evs) ->
  stream_response env client ms m v r w =
  (Returned (join (fragments evs)),
   World (session w)
         (ui w ++ [ChatMessage "assistant"; Empty]
               ++ (PlaceholderMarkdown <$> proper_prefixes (fragments evs)))
         (outbox w ++ [Request m ms v r])).
Proof.
  intros H. unfold stream_response, try_except, responses_stream.
  run_script. rewrite H.
  rewrite for_events_exhausted. cbn [until_done session ui outbox].
  run_script. rewrite fmap_append_empty.
  by rewrite <- !app_assoc.
Qed.

Lemma stream_response_cut (evs : list event) (err : string)
    (rest : list stream_item) (w : world) :
  endpoint env client (Request m ms v r) = Opened ((Yield <$> evs) ++ Raise err :: rest) ->
  stream_response env client ms m v r w =
  (Returned "",
   World (session w)
         (ui w ++ [ChatMessage "assistant"; Empty]
               ++ (PlaceholderMarkdown <$> proper_prefixes (fragments evs))
               ++ [Error ("❌ Error while generating: " +:+ err)])
         (outbox w ++ [Request m ms v r])).
Proof.
  intros H. unfold stream_response, try_except, responses_stream.
  run_script. rewrite H.
  rewrite for_events_raised. cbn [session ui outbox].
  rewrite fmap_append_empty.
  by rewrite <- !app_assoc.
Qed.

Lemma stream_response_refused (err : string) (w : world) :
  endpoint env client (Request m ms v r) = Refused err ->
  stream_response env client ms m v r w =
  (Returned "",
   World (session w)
         (ui w ++ [ChatMessage "assistant"; Empty;
                   Error ("❌ Error while generating: " +:+ err)])
         (outbox w ++ [Request m ms v r])).
Proof.
  intros H. unfold stream_response, try_except, responses_stream.
  run_script. rewrite H. run_script.
  by rewrite <- !app_assoc.
Qed.

(** The function always returns, touches nothing of the session, and what
    it returns and writes does not depend on the world it starts in. *)
Lemma stream_response_frame :
  exists (out : string) (acts : list ui_action),
    (failure (endpoint env client (Request m ms v r)) <> None -> out = "") /\
    forall w,
      stream_response env client ms m v r w =
      (Returned out, World (session w) (ui w ++ acts) (outbox w ++ [Request m ms v r])).
Proof.
  destruct (endpoint env client (Request m ms v r)) as [err|items] eqn:E.
  - eexists "", _. split; [reflexivity|]. intros w. by apply stream_response_refused.
  - destruct (stream_cases items) as [(evs & -> & Hn)|(evs & err & rest & -> & Hs)].
    + eexists _, _. split; [|intros w; by apply stream_response_success].
      cbn [failure]. by rewrite Hn.
    + eexists "", _. split; [reflexivity|]. intros w. exact (stream_response_cut evs err rest w E).
Qed.

End StreamResponse.

Lemma yielded_items_exhausted (evs : list event) : yielded_items (Yield <$> evs) = evs.
Proof. induction evs as [|ev evs IH]; [done|]. cbn. by rewrite IH. Qed.

Lemma yielded_items_cut (evs : list event) (err : string) (rest : list stream_item) :
  yielded_items ((Yield <$> evs) ++ Raise err :: rest) = evs.
Proof. induction evs as [|ev evs IH]; [done|]. cbn. by rewrite IH. Qed.

(** [stream_response] on any connection: what it returns and writes, by the
    events delivered and the exception, if any, that ends them. *)
Lemma stream_response_world (env : environment) (client : OpenAI)
    (ms : list message) (m v r : string) (w : world) :
  let c := endpoint env client (Request m ms v r) in
  stream_response env client ms m v r w =
  (Returned (match failure c with
             | Some _ => ""
             | None => join (fragments (yielded c))
             end),
   World (session w)
         (ui w ++ [ChatMessage "assistant"; Empty]
               ++ (PlaceholderMarkdown <$> proper_prefixes (fragments (yielded c)))
               ++ match failure c with
                  | Some err => [Error ("❌ Error while generating: " +:+ err)]
                  | None => []
                  end)
         (outbox w ++ [Request m ms v r])).
Proof.
  cbn zeta. destruct (endpoint env client (Request m ms v r)) as [err|items] eqn:E.
  - by rewrite (stream_response_refused _ _ _ _ _ _ err).
  - cbn [failure yielded].
    destruct (stream_cases items) as [(evs & -> & ->)|(evs & err & rest & -> & ->)].
    + rewrite (stream_response_success _ _ _ _ _ _ evs) by done.
      by rewrite yielded_items_exhausted, app_nil_r.
    + rewrite (stream_response_cut _ _ _ _ _ _ evs err rest) by done.
      by rewrite yielded_items_cut.
Qed.

(** ** What a run writes to the page *)

Lemma ui_since_app (w : world) (s : session_state) (acts : list ui_action)
    (out : list request) :
  ui_since w (World s (ui w ++ acts) out) = acts.
Proof. unfold ui_since. cbn [ui]. by rewrite drop_app_length. Qed.

Lemma rendered_app (xs ys : list ui_action) : rendered (xs ++ ys) = rendered xs ++ rendered ys.
Proof. apply omap_app. Qed.

Lemma errors_app (xs ys : list ui_action) : errors (xs ++ ys) = errors xs ++ errors ys.
Proof. apply omap_app. Qed.

Lemma rendered_placeholder (ps : list string) : rendered (PlaceholderMarkdown <$> ps) = ps.
Proof. induction ps as [|p ps IH]; [done|]. cbn. by f_equal. Qed.

Lemma errors_placeholder (ps : list string) : errors (PlaceholderMarkdown <$> ps) = [].
Proof. induction ps as [|p ps IH]; [done|]. exact IH. Qed.

(** ** The streaming accumulator *)

(** C1.  When the stream is read to its end without an exception, and its
    events contain text fragments [fs] in that order among events of other
    types, [stream_response] returns the concatenation of [fs]: each
    fragment contributes once, in arrival order, and nothing else does. *)
Theorem stream_response_concatenates_fragments
    (env : environment) (client : OpenAI) (ms : list message) (m v r : string)
    (evs : list event) (fs : list string) (w : world) :
  endpoint env client (Request m ms v r) = Opened (Yield <$> evs) ->
  carries evs fs ->
  (stream_response env client ms m v r w).1 = Returned (join fs).
Proof.
  intros Hopen Hfs. apply carries_inv in Hfs as ->.
  by rewrite (stream_response_success _ _ _ _ _ _ evs).
Qed.

Lemma stream_response_concatenates_fragments_witness :
  (stream_response (Sample.env Sample.hello (Some "hi") false) Sample.client
     [Message "user" "hi"] "gpt-5-nano" "low" "minimal" Sample.ready).1
  = Returned "Hello".
Proof.
  apply (stream_response_concatenates_fragments
           (Sample.env Sample.hello (Some "hi") false) Sample.client
           [Message "user" "hi"] "gpt-5-nano" "low" "minimal"
           [Sample.created; Sample.fragment "Hel"; Sample.created;
            Sample.fragment "lo"; completed]
           ["Hel"; "lo"] Sample.ready).
  - reflexivity.
  - apply carries_other; [discriminate|].
    apply (carries_fragment (Sample.fragment "Hel")); [reflexivity|].
    apply carries_other; [discriminate|].
    apply (carries_fragment (Sample.fragment "lo")); [reflexivity|].
    apply carries_other; [discriminate|].
    apply carries_nil.
Defined.

(** C2, as stated, fails: a stream that raises after two fragments and a
    stream that completes without any fragment make [stream_response] return
    the same value, the empty string. *)
Lemma failed_and_empty_runs_return_the_same :
  failure Sample.hello_cut = Some "connection reset" /\
  failure Sample.silent = None /\
  (stream_response (Sample.env Sample.hello_cut (Some "hi") false) Sample.client
     [Message "user" "hi"] "gpt-5-nano" "low" "minimal" Sample.ready).1
  = Returned "" /\
  (stream_response (Sample.env Sample.silent (Some "hi") false) Sample.client
     [Message "user" "hi"] "gpt-5-nano" "low" "minimal" Sample.ready).1
  = Returned "".
Proof. repeat split; reflexivity. Qed.

(** C2, amended.  When an exception is raised while the stream is opened
    or read, [stream_response] returns the empty string and writes one error
    notification, carrying the exception's message, to the page.  A run
    without exception returns the concatenation of the fragments delivered
    and writes no error notification; when that text is empty the value
    returned is the one a failed run returns. *)
Theorem stream_response_failure_is_empty_and_notified
    (env : environment) (client : OpenAI) (ms : list message) (m v r : string)
    (w : world) :
  let c := endpoint env client (Request m ms v r) in
  let run := stream_response env client ms m v r w in
  match failure c with
  | Some err =>
      run.1 = Returned "" /\
      errors (ui_since w run.2) = ["❌ Error while generating: " +:+ err]
  | None =>
      run.1 = Returned (join (fragments (yielded c))) /\
      errors (ui_since w run.2) = []
  end.
Proof.
  cbn zeta. rewrite stream_response_world. cbn zeta. cbn [fst snd].
  rewrite ui_since_app, !errors_app, errors_placeholder.
  destruct (failure (endpoint env client (Request m ms v r))) as [err|].
  - split; reflexivity.
  - split; reflexivity.
Qed.

(** C4, as stated, fails: after the single fragment ["a"] the only value
    passed to [placeholder.markdown] is ["a"]; there is no call before the
    first fragment, the placeholder being created by [st.empty()]. *)
Lemma render_sequence_lacks_empty_prefix :
  let run := stream_response
               (Sample.env (Opened [Yield (Sample.fragment "a")]) (Some "hi") false)
               Sample.client [Message "user" "hi"] "gpt-5-nano" "low" "minimal"
               Sample.ready in
  run.1 = Returned "a" /\
  carries [Sample.fragment "a"] ["a"] /\
  rendered (ui_since Sample.ready run.2) = ["a"] /\
  all_prefixes ["a"] = [""; "a"] /\
  rendered (ui_since Sample.ready run.2) <> all_prefixes ["a"].
Proof.
  cbn zeta. split; [reflexivity|]. split.
  { apply (carries_fragment (Sample.fragment "a")); [reflexivity | constructor]. }
  split; [reflexivity|]. split; [reflexivity|]. discriminate.
Qed.

(** C4, amended.  In a run that reads the stream to its end, over fragments
    [f1..fN], the values passed to [placeholder.markdown] are exactly the
    [N] prefixes [f1, f1+f2, ..., f1+...+fN], one call per fragment and none
    skipped: the sequence of all prefixes without its first element, no call
    being made before the first fragment; when there is at least one
    fragment, the value of the last call is the text returned. *)
Theorem stream_response_renders_every_prefix
    (env : environment) (client : OpenAI) (ms : list message) (m v r : string)
    (evs : list event) (fs : list string) (w : world) :
  endpoint env client (Request m ms v r) = Opened (Yield <$> evs) ->
  carries evs fs ->
  let run := stream_response env client ms m v r w in
  rendered (ui_since w run.2) = proper_prefixes fs /\
  length (rendered (ui_since w run.2)) = length fs /\
  "" :: rendered (ui_since w run.2) = all_prefixes fs /\
  (fs <> [] -> Returned <$> last (rendered (ui_since w run.2)) = Some run.1).
Proof.
  intros Hopen Hfs. apply carries_inv in Hfs as ->. cbn zeta.
  rewrite (stream_response_success _ _ _ _ _ _ evs) by done. cbn [fst snd].
  rewrite ui_since_app, rendered_app, rendered_placeholder.
  change (rendered [ChatMessage "assistant"; Empty]) with (@nil string).
  rewrite app_nil_l.
  split; [done|]. split.
  { unfold proper_prefixes. by rewrite length_fmap, length_seq. }
  split; [done|].
  intros Hne. destruct (fragments evs) as [|f fs]; [done|].
  by rewrite last_proper_prefixes.
Qed.

Lemma stream_response_renders_every_prefix_witness :
  let run := stream_response (Sample.env Sample.hello (Some "hi") false) Sample.client
               [Message "user" "hi"] "gpt-5-nano" "low" "minimal" Sample.ready in
  rendered (ui_since Sample.ready run.2) = ["Hel"; "Hello"] /\
  length (rendered (ui_since Sample.ready run.2)) = 2 /\
  "" :: rendered (ui_since Sample.ready run.2) = [""; "Hel"; "Hello"] /\
  (["Hel"; "lo"] <> [] ->
   Returned <$> last (rendered (ui_since Sample.ready run.2)) = Some run.1).
Proof.
  apply (stream_response_renders_every_prefix
           (Sample.env Sample.hello (Some "hi") false) Sample.client
           [Message "user" "hi"] "gpt-5-nano" "low" "minimal"
           [Sample.created; Sample.fragment "Hel"; Sample.created;
            Sample.fragment "lo"; completed]
           ["Hel"; "lo"] Sample.ready).
  - reflexivity.
  - apply carries_other; [discriminate|].
    apply (carries_fragment (Sample.fragment "Hel")); [reflexivity|].
    apply carries_other; [discriminate|].
    apply (carries_fragment (Sample.fragment "lo")); [reflexivity|].
    apply carries_other; [discriminate|].
    apply carries_nil.
Defined.

(** C5.  When the event source is exhausted, [stream_response] returns the
    concatenation of the fragments received, with no error notification,
    whether or not a completion event was among them: the run over [evs] and
    the run over [evs] followed by a completion event end in the same result
    and the same world. *)
Theorem stream_response_finalizes_on_exhaustion
    (env env' : environment) (client : OpenAI) (ms : list message) (m v r : string)
    (evs : list event) (w : world) :
  endpoint env client (Request m ms v r) = Opened (Yield <$> evs) ->
  endpoint env' client (Request m ms v r) = Opened (Yield <$> (evs ++ [completed])) ->
  let run := stream_response env client ms m v r w in
  run.1 = Returned (join (fragments evs)) /\
  errors (ui_since w run.2) = [] /\
  run = stream_response env' client ms m v r w.
Proof.
  intros H H'. cbn zeta.
  rewrite (stream_response_success _ _ _ _ _ _ evs) by done.
  rewrite (stream_response_success _ _ _ _ _ _ (evs ++ [completed])) by done.
  cbn [fst snd]. rewrite ui_since_app, errors_app, errors_placeholder.
  rewrite fragments_app, (fragments_cons_other completed []) by discriminate.
  change (fragments []) with (@nil string). rewrite !app_nil_r.
  repeat split.
Qed.

Lemma stream_response_finalizes_on_exhaustion_witness :
  let run := stream_response (Sample.env Sample.ab_truncated (Some "hi") false)
               Sample.client [Message "user" "hi"] "gpt-5-nano" "low" "minimal"
               Sample.ready in
  run.1 = Returned "AB" /\
  errors (ui_since Sample.ready run.2) = [] /\
  run = stream_response
          (Sample.env (Opened (Yield <$> [Sample.fragment "A"; Sample.fragment "B"; completed]))
                      (Some "hi") false)
          Sample.client [Message "user" "hi"] "gpt-5-nano" "low" "minimal" Sample.ready.
Proof.
  apply (stream_response_finalizes_on_exhaustion
           (Sample.env Sample.ab_truncated (Some "hi") false)
           (Sample.env (Opened (Yield <$> [Sample.fragment "A"; Sample.fragment "B"; completed]))
                       (Some "hi") false)
           Sample.client [Message "user" "hi"] "gpt-5-nano" "low" "minimal"
           [Sample.fragment "A"; Sample.fragment "B"] Sample.ready);
    reflexivity.
Defined.

(** ** One run of the script *)

Lemma copy_messages (ms : list message) :
  (fun m => Message (role m) (content m)) <$> ms = ms.
Proof. induction ms as [|[ro co] ms IH]; [done|]. cbn. by rewrite IH. Qed.

Lemma for_each_history (ms : list message) (w : world) :
  for_each ms (fun msg => emit (ChatMessage (role msg)) ;; emit (Markdown (content msg))) w =
  (Returned tt, World (session w) (ui w ++ history_ui ms) (outbox w)).
Proof.
  revert w. induction ms as [|msg ms IH]; intros w.
  - cbn. rewrite app_nil_r. by destruct w.
  - cbn [for_each]. run_script. rewrite IH. run_script.
    by rewrite <- !app_assoc.
Qed.

Lemma init_state_unfold (w : world) :
  init_state w = (Returned tt, World (initialised (session w)) (ui w) (outbox w)).
Proof. destruct w as [[[ms|] [md|] [t|] vb re] u o]; reflexivity. Qed.

(** The body of [if prompt:], in a session where the script has got that
    far: the user turn is appended, the whole transcript goes out, and the
    reply is appended when it is not empty. *)
Lemma on_prompt_unfold (env : environment) (client : OpenAI) (prompt : string)
    (s : session_state) (u : list ui_action) (o : list request)
    (ms : list message) (md vb re : string) :
  messages s = Some ms -> model s = Some md ->
  verbosity s = Some vb -> reasoning_effort s = Some re ->
  let sent := ms ++ [Message "user" prompt] in
  exists (out : string) (acts : list ui_action),
    (forall w', stream_response env client sent md vb re w' =
                (Returned out,
                 World (session w') (ui w' ++ acts)
                       (outbox w' ++ [Request md sent vb re]))) /\
    on_prompt env client prompt (World s u o) =
    (Returned tt,
     World (set_messages
              (if Py.truthy_str out then sent ++ [Message "assistant" out] else sent) s)
           (u ++ [ChatMessage "user"; Markdown prompt] ++ acts)
           (o ++ [Request md sent vb re])).
Proof.
  intros Hms Hmd Hvb Hre sent.
  destruct (stream_response_frame env client sent md vb re) as (out & acts & _ & Hrun).
  exists out, acts. split; [exact Hrun|].
  unfold on_prompt, append_and_render_user, messages_append. run_script.
  rewrite Hms. run_script. rewrite Hmd, Hvb, Hre. run_script.
  rewrite copy_messages. fold sent. rewrite Hrun. run_script.
  destruct (Py.truthy_str out); run_script; by rewrite <- !app_assoc.
Qed.

Lemma get_client_found (env : environment) (w : world) :
  has_credential env = true ->
  get_client env w = (Returned (Client (credential env)), w).
Proof.
  unfold has_credential, credential, get_client, secrets_get. intros H.
  destruct (secrets env) as [file|]; [|done]. run_script. by rewrite H.
Qed.

Lemma get_client_missing (env : environment) (w : world) (file : gmap string string) :
  secrets env = Some file -> has_credential env = false ->
  get_client env w =
  (Stopped,
   World (session w)
         (ui w ++ [Error "⚠️ Missing API key. Set OPENAI_API_KEY in .streamlit/secrets.toml or as an env var."])
         (outbox w)).
Proof.
  unfold has_credential, credential, get_client, secrets_get. intros -> H.
  run_script. by rewrite H.
Qed.

Lemma get_client_no_file (env : environment) (w : world) :
  secrets env = None -> get_client env w = (Raised no_secrets_file, w).
Proof. unfold get_client, secrets_get. by intros ->. Qed.

Lemma has_credential_file (env : environment) :
  has_credential env = true -> exists file, secrets env = Some file.
Proof.
  unfold has_credential, credential. destruct (secrets env) as [file|]; [eauto|done].
Qed.

Lemma render_sidebar_unfold (env : environment) (w : world) :
  render_sidebar env w =
  if clean_chat_clicked env then
    (Rerun,
     World (set_messages [] (configured env (session w)))
           (ui w ++ [SidebarTitle "⚙️ Parameters"; SidebarDivider]) (outbox w))
  else
    (Returned tt,
     World (configured env (session w))
           (ui w ++ [SidebarTitle "⚙️ Parameters"; SidebarDivider]) (outbox w)).
Proof.
  unfold render_sidebar. destruct (clean_chat_clicked env); run_script;
    by rewrite <- !app_assoc.
Qed.

Lemma render_history_unfold (ms : list message) (w : world) :
  messages (session w) = Some ms ->
  render_history w = (Returned tt, World (session w) (ui w ++ history_ui ms) (outbox w)).
Proof.
  intros H. unfold render_history.
  erewrite bind_returned; [apply for_each_history|].
  unfold read. by rewrite H.
Qed.

(** Running the first statements of a sequence by the equations above. *)
Ltac step eqn := erewrite bind_returned by (apply eqn; done).

Section Main.

Variables (env : environment) (w : world).

Lemma main_missing_credential (file : gmap string string) :
  secrets env = Some file -> has_credential env = false ->
  main env w =
  (Stopped,
   World (initialised (session w))
         (ui w ++ [PageConfig;
                   Error "⚠️ Missing API key. Set OPENAI_API_KEY in .streamlit/secrets.toml or as an env var."])
         (outbox w)).
Proof.
  intros Hf H. unfold main. step emit_unfold. step init_state_unfold.
  erewrite bind_unfold, get_client_missing by done.
  cbn [session ui outbox]. by rewrite <- app_assoc.
Qed.

Lemma main_no_secrets_file :
  secrets env = None ->
  main env w =
  (Raised no_secrets_file,
   World (initialised (session w)) (ui w ++ [PageConfig]) (outbox w)).
Proof.
  intros Hf. unfold main. step emit_unfold. step init_state_unfold.
  by erewrite bind_unfold, get_client_no_file.
Qed.

Lemma main_clean_chat :
  has_credential env = true -> clean_chat_clicked env = true ->
  main env w =
  (Rerun,
   World (set_messages [] (configured env (initialised (session w))))
         (ui w ++ header_ui) (outbox w)).
Proof.
  intros H Hc. unfold main. step emit_unfold. step init_state_unfold.
  step get_client_found. do 2 step emit_unfold.
  rewrite bind_unfold, render_sidebar_unfold, Hc. cbn [session ui outbox].
  by rewrite <- !app_assoc.
Qed.

(** The run up to the chat input, when the button is not clicked. *)
Lemma main_upto_input (rest : OpenAI -> script unit) :
  has_credential env = true -> clean_chat_clicked env = false ->
  (emit PageConfig ;;
   init_state ;;
   client ← get_client env;
   emit (Title "🤖 Chat with OpenAI API") ;;
   emit (Subheader "A simple chat interface using the Responses API (streaming)") ;;
   render_sidebar env ;;
   emit Divider ;;
   render_history ;;
   rest client) w =
  rest (Client (credential env))
       (World (configured env (initialised (session w)))
              (ui w ++ header_ui ++ [Divider] ++ history_ui (transcript w))
              (outbox w)).
Proof.
  intros H Hc. step emit_unfold. step init_state_unfold.
  step get_client_found. do 2 step emit_unfold.
  erewrite bind_returned by (rewrite render_sidebar_unfold, Hc; reflexivity).
  step emit_unfold.
  erewrite bind_returned by (apply (render_history_unfold (transcript w)); reflexivity).
  cbn [session ui outbox]. by rewrite <- !app_assoc.
Qed.

Lemma main_idle :
  has_credential env = true -> clean_chat_clicked env = false ->
  Py.truthy (chat_input env) = false ->
  main env w =
  (Returned tt,
   World (configured env (initialised (session w)))
         (ui w ++ header_ui ++ [Divider] ++ history_ui (transcript w))
         (outbox w)).
Proof.
  intros H Hc Hp. unfold main.
  destruct (chat_input env) as [p|]; cbn in Hp; rewrite ?Hp;
    exact (main_upto_input (fun _ => mret tt) H Hc).
Qed.

Lemma main_submit (prompt : string) :
  has_credential env = true -> clean_chat_clicked env = false ->
  chat_input env = Some prompt -> prompt <> "" ->
  let sent := transcript w ++ [Message "user" prompt] in
  exists (out : string) (acts : list ui_action),
    (forall w', stream_response env (Client (credential env)) sent
                  (selected_model env) (selected_verbosity env)
                  (selected_reasoning_effort env) w' =
                (Returned out,
                 World (session w') (ui w' ++ acts)
                       (outbox w' ++ [request_for env w prompt]))) /\
    main env w =
    (Returned tt,
     World (set_messages
              (if Py.truthy_str out then sent ++ [Message "assistant" out] else sent)
              (configured env (initialised (session w))))
           (ui w ++ header_ui ++ [Divider] ++ history_ui (transcript w)
                 ++ [ChatMessage "user"; Markdown prompt] ++ acts)
           (outbox w ++ [request_for env w prompt])).
Proof.
  intros H Hc Hp Hne sent.
  destruct (on_prompt_unfold env (Client (credential env)) prompt
              (configured env (initialised (session w)))
              (ui w ++ header_ui ++ [Divider] ++ history_ui (transcript w))
              (outbox w) (transcript w)
              (selected_model env) (selected_verbosity env)
              (selected_reasoning_effort env))
    as (out & acts & Hrun & Hturn); try reflexivity.
  exists out, acts. split; [exact Hrun|].
  unfold main. rewrite Hp. apply truthy_str_spec in Hne. rewrite Hne.
  etrans; [exact (main_upto_input (fun c => on_prompt env c prompt) H Hc)|].
  rewrite Hturn. by rewrite <- !(@app_assoc ui_action).
Qed.

End Main.

(** ** Committing the reply *)

Lemma append_and_render_user_unfold (prompt : string) (w : world) (ms : list message) :
  messages (session w) = Some ms ->
  append_and_render_user prompt w =
  (Returned tt,
   World (set_messages (ms ++ [Message "user" prompt]) (session w))
         (ui w ++ [ChatMessage "user"; Markdown prompt]) (outbox w)).
Proof.
  intros H. unfold append_and_render_user, messages_append. run_script.
  rewrite H. run_script. by rewrite <- !app_assoc.
Qed.

(** The three stages of a user turn: the world in which streaming starts,
    the run of [stream_response] from there, and the end of the turn. *)
Lemma on_prompt_stages (env : environment) (client : OpenAI) (prompt : string)
    (w : world) (ms : list message) (md vb re : string) :
  messages (session w) = Some ms -> model (session w) = Some md ->
  verbosity (session w) = Some vb -> reasoning_effort (session w) = Some re ->
  let started := (append_and_render_user prompt w).2 in
  let streamed := stream_response env client (transcript started) md vb re started in
  let finished := on_prompt env client prompt w in
  transcript started = ms ++ [Message "user" prompt] /\
  exists out : string,
    streamed.1 = Returned out /\
    session streamed.2 = session started /\
    finished.1 = Returned tt /\
    session finished.2 =
      (if Py.truthy_str out
       then set_messages (transcript started ++ [Message "assistant" out]) (session started)
       else session started).
Proof.
  intros Hms Hmd Hvb Hre. cbn zeta.
  rewrite (append_and_render_user_unfold prompt w ms Hms). cbn [snd].
  unfold transcript at 1 2 3. cbn [session set_messages messages default].
  split; [done|].
  destruct w as [s u o]. cbn [session ui outbox] in *.
  destruct (on_prompt_unfold env client prompt s u o ms md vb re Hms Hmd Hvb Hre)
    as (out & acts & Hrun & Hturn).
  exists out. rewrite Hrun, Hturn. cbn [fst snd session].
  repeat split. unfold transcript. cbn [session set_messages messages default].
  by destruct (Py.truthy_str out).
Qed.

(** C3.  When the stream yields some events and then raises, the run of
    [stream_response] returns the empty string, not the text accumulated so
    far, and leaves the session as it was when streaming started; the turn
    then appends no assistant message, so that at its end the session, and
    with it the transcript, is exactly what it was when streaming started:
    the earlier messages followed by the user's prompt. *)
Theorem failed_stream_commits_nothing
    (env : environment) (client : OpenAI) (prompt : string) (w : world)
    (ms : list message) (md vb re : string)
    (evs : list event) (err : string) (rest : list stream_item) :
  messages (session w) = Some ms -> model (session w) = Some md ->
  verbosity (session w) = Some vb -> reasoning_effort (session w) = Some re ->
  endpoint env client (Request md (ms ++ [Message "user" prompt]) vb re)
    = Opened ((Yield <$> evs) ++ Raise err :: rest) ->
  let started := (append_and_render_user prompt w).2 in
  let streamed := stream_response env client (transcript started) md vb re started in
  let finished := on_prompt env client prompt w in
  streamed.1 = Returned "" /\
  session streamed.2 = session started /\
  finished.1 = Returned tt /\
  session finished.2 = session started /\
  transcript finished.2 = transcript started /\
  transcript finished.2 = ms ++ [Message "user" prompt].
Proof.
  intros Hms Hmd Hvb Hre Hcut.
  destruct (on_prompt_stages env client prompt w ms md vb re Hms Hmd Hvb Hre)
    as (Hstart & out & Hout & Hframe & Hret & Hend).
  cbn zeta in *. rewrite Hstart in Hout.
  rewrite (stream_response_cut _ _ _ _ _ _ evs err rest) in Hout by done.
  cbn [fst] in Hout. injection Hout as <-.
  change (Py.truthy_str "") with false in Hend.
  repeat split; try done.
  - by rewrite Hstart, (stream_response_cut _ _ _ _ _ _ evs err rest).
  - unfold transcript. by rewrite Hend.
  - unfold transcript in *. by rewrite Hend.
Qed.

Lemma failed_stream_commits_nothing_witness :
  let env := Sample.env Sample.hello_cut (Some "hi") false in
  let started := (append_and_render_user "hi" Sample.ready).2 in
  let streamed := stream_response env Sample.client (transcript started)
                    "gpt-5-nano" "low" "minimal" started in
  let finished := on_prompt env Sample.client "hi" Sample.ready in
  streamed.1 = Returned "" /\
  session streamed.2 = session started /\
  finished.1 = Returned tt /\
  session finished.2 = session started /\
  transcript finished.2 = transcript started /\
  transcript finished.2 = [] ++ [Message "user" "hi"].
Proof.
  apply (failed_stream_commits_nothing
           (Sample.env Sample.hello_cut (Some "hi") false) Sample.client "hi"
           Sample.ready [] "gpt-5-nano" "low" "minimal"
           [Sample.created; Sample.fragment "Hel"; Sample.fragment "lo"]
           "connection reset" []);
    reflexivity.
Defined.

(** C9.  The turn appends an assistant message exactly when the text
    returned by [stream_response] is not empty.  A reply that completes with
    the empty text is not committed: the session at the end of the turn is
    then the one in which streaming started, as after a failure. *)
Theorem reply_committed_iff_nonempty
    (env : environment) (client : OpenAI) (prompt : string) (w : world)
    (ms : list message) (md vb re : string) :
  messages (session w) = Some ms -> model (session w) = Some md ->
  verbosity (session w) = Some vb -> reasoning_effort (session w) = Some re ->
  let started := (append_and_render_user prompt w).2 in
  let streamed := stream_response env client (transcript started) md vb re started in
  let finished := on_prompt env client prompt w in
  exists out : string,
    streamed.1 = Returned out /\
    finished.1 = Returned tt /\
    (out <> "" <->
     transcript finished.2 = transcript started ++ [Message "assistant" out]) /\
    (out = "" <-> transcript finished.2 = transcript started) /\
    (out = "" -> session finished.2 = session started).
Proof.
  intros Hms Hmd Hvb Hre.
  destruct (on_prompt_stages env client prompt w ms md vb re Hms Hmd Hvb Hre)
    as (Hstart & out & Hout & Hframe & Hret & Hend).
  cbn zeta in *. exists out. split; [done|]. split; [done|].
  assert (Hgrow : forall (l : list message) (x : message), l ++ [x] <> l).
  { intros l x Heq. apply (f_equal length) in Heq. rewrite length_app in Heq.
    cbn in Heq. lia. }
  unfold transcript at 1 3. rewrite Hend.
  destruct (Py.truthy_str out) eqn:Ht.
  - apply truthy_str_spec in Ht. cbn [set_messages messages default].
    repeat split; try done. intros Heq. by apply Hgrow in Heq.
  - apply truthy_str_false in Ht. subst out. fold (transcript (append_and_render_user prompt w).2).
    repeat split; try done. intros Heq. symmetry in Heq. by apply Hgrow in Heq.
Qed.

Lemma reply_committed_iff_nonempty_witness :
  let env := Sample.env Sample.silent (Some "hi") false in
  let started := (append_and_render_user "hi" Sample.ready).2 in
  let streamed := stream_response env Sample.client (transcript started)
                    "gpt-5-nano" "low" "minimal" started in
  let finished := on_prompt env Sample.client "hi" Sample.ready in
  exists out : string,
    streamed.1 = Returned out /\
    finished.1 = Returned tt /\
    (out <> "" <->
     transcript finished.2 = transcript started ++ [Message "assistant" out]) /\
    (out = "" <-> transcript finished.2 = transcript started) /\
    (out = "" -> session finished.2 = session started).
Proof.
  apply (reply_committed_iff_nonempty
           (Sample.env Sample.silent (Some "hi") false) Sample.client "hi"
           Sample.ready [] "gpt-5-nano" "low" "minimal");
    reflexivity.
Defined.

(** ** Submissions *)

Lemma main_submit_transcript (env : environment) (w : world) (prompt : string) :
  submits env prompt ->
  exists out : string,
    (forall w', (stream_response env (Client (credential env))
                   (transcript w ++ [Message "user" prompt])
                   (selected_model env) (selected_verbosity env)
                   (selected_reasoning_effort env) w').1 = Returned out) /\
    (main env w).1 = Returned tt /\
    outbox (main env w).2 = outbox w ++ [request_for env w prompt] /\
    transcript (main env w).2 =
      transcript w ++ Message "user" prompt ::
        (if Py.truthy_str out then [Message "assistant" out] else []).
Proof.
  intros (H & Hc & Hp & Hne).
  destruct (main_submit env w prompt H Hc Hp Hne) as (out & acts & Hrun & ->).
  exists out. split; [|split; [done|split; [done|]]].
  - intros w'. by rewrite Hrun.
  - unfold transcript at 1. cbn [snd session set_messages messages default].
    destruct (Py.truthy_str out); [|done]. by rewrite <- app_assoc.
Qed.

Lemma main_submit_completed (env : environment) (w : world) (prompt : string)
    (evs : list event) :
  submits env prompt ->
  endpoint env (Client (credential env)) (request_for env w prompt)
    = Opened (Yield <$> evs) ->
  join (fragments evs) <> "" ->
  transcript (main env w).2 =
    transcript w ++ [Message "user" prompt; Message "assistant" (join (fragments evs))].
Proof.
  intros Hs Hopen Hne.
  destruct (main_submit_transcript env w prompt Hs) as (out & Hout & _ & _ & ->).
  specialize (Hout w).
  rewrite (stream_response_success _ _ _ _ _ _ evs) in Hout by exact Hopen.
  cbn [fst] in Hout. injection Hout as <-.
  apply truthy_str_spec in Hne. by rewrite Hne.
Qed.

(** C6.  Every submission sends one request, and its input is the whole
    transcript to date followed by the new user message, as role/content
    pairs in insertion order, unmodified.  Over three consecutive
    submissions: when the first two replies complete with non-empty texts,
    the third request carries the four messages of the two exchanges and the
    new user message, after whatever the transcript held before. *)
Theorem request_carries_whole_transcript
    (env1 env2 env3 : environment) (p1 p2 p3 : string) (w : world) :
  submits env1 p1 -> submits env2 p2 -> submits env3 p3 ->
  let w1 := (main env1 w).2 in
  let w2 := (main env2 w1).2 in
  let w3 := (main env3 w2).2 in
  outbox w1 = outbox w ++
    [Request (selected_model env1) (transcript w ++ [Message "user" p1])
             (selected_verbosity env1) (selected_reasoning_effort env1)] /\
  outbox w2 = outbox w1 ++ [request_for env2 w1 p2] /\
  outbox w3 = outbox w2 ++ [request_for env3 w2 p3] /\
  forall evs1 evs2 : list event,
    endpoint env1 (Client (credential env1)) (request_for env1 w p1)
      = Opened (Yield <$> evs1) ->
    endpoint env2 (Client (credential env2)) (request_for env2 w1 p2)
      = Opened (Yield <$> evs2) ->
    join (fragments evs1) <> "" -> join (fragments evs2) <> "" ->
    rq_input (request_for env3 w2 p3) =
      transcript w ++
      [Message "user" p1; Message "assistant" (join (fragments evs1));
       Message "user" p2; Message "assistant" (join (fragments evs2));
       Message "user" p3].
Proof.
  intros H1 H2 H3. cbn zeta.
  destruct (main_submit_transcript env1 w p1 H1) as (_ & _ & _ & Ho1 & _).
  destruct (main_submit_transcript env2 (main env1 w).2 p2 H2) as (_ & _ & _ & Ho2 & _).
  destruct (main_submit_transcript env3 (main env2 (main env1 w).2).2 p3 H3)
    as (_ & _ & _ & Ho3 & _).
  repeat split; try done.
  intros evs1 evs2 E1 E2 Hr1 Hr2. cbn [request_for rq_input].
  rewrite (main_submit_completed env2 _ p2 evs2 H2 E2 Hr2).
  rewrite (main_submit_completed env1 _ p1 evs1 H1 E1 Hr1).
  by rewrite <- !app_assoc.
Qed.

Lemma request_carries_whole_transcript_witness :
  let env1 := Sample.env Sample.hello (Some "hi") false in
  let env2 := Sample.env Sample.ab_truncated (Some "spell it") false in
  let env3 := Sample.env Sample.hello_cut (Some "again") false in
  let w1 := (main env1 fresh_world).2 in
  let w2 := (main env2 w1).2 in
  let w3 := (main env3 w2).2 in
  outbox w1 = outbox fresh_world ++
    [Request (selected_model env1) (transcript fresh_world ++ [Message "user" "hi"])
             (selected_verbosity env1) (selected_reasoning_effort env1)] /\
  outbox w2 = outbox w1 ++ [request_for env2 w1 "spell it"] /\
  outbox w3 = outbox w2 ++ [request_for env3 w2 "again"] /\
  forall evs1 evs2 : list event,
    endpoint env1 (Client (credential env1)) (request_for env1 fresh_world "hi")
      = Opened (Yield <$> evs1) ->
    endpoint env2 (Client (credential env2)) (request_for env2 w1 "spell it")
      = Opened (Yield <$> evs2) ->
    join (fragments evs1) <> "" -> join (fragments evs2) <> "" ->
    rq_input (request_for env3 w2 "again") =
      transcript fresh_world ++
      [Message "user" "hi"; Message "assistant" (join (fragments evs1));
       Message "user" "spell it"; Message "assistant" (join (fragments evs2));
       Message "user" "again"].
Proof.
  apply (request_carries_whole_transcript
           (Sample.env Sample.hello (Some "hi") false)
           (Sample.env Sample.ab_truncated (Some "spell it") false)
           (Sample.env Sample.hello_cut (Some "again") false)
           "hi" "spell it" "again" fresh_world);
    (split; [reflexivity | split; [reflexivity | split; [reflexivity | discriminate]]]).
Defined.

(** The third request of the sample session, computed. *)
Example third_request_of_sample_session :
  let env1 := Sample.env Sample.hello (Some "hi") false in
  let env2 := Sample.env Sample.ab_truncated (Some "spell it") false in
  let env3 := Sample.env Sample.hello_cut (Some "again") false in
  rq_input <$> last (outbox (main env3 (main env2 (main env1 fresh_world).2).2).2) =
  Some [Message "user" "hi"; Message "assistant" "Hello";
        Message "user" "spell it"; Message "assistant" "AB";
        Message "user" "again"].
Proof. vm_compute. reflexivity. Qed.

(** ** Reset *)

(** C7.  The "Clean chat" assignment empties the transcript of any session
    and is idempotent.  A run in which the button is clicked ends, by
    [st.rerun()], with the empty transcript, and so does a second such run
    right after it; appending a message after the reset gives the transcript
    that appending it in a freshly initialised session gives, the message
    alone. *)
Theorem clean_chat_is_idempotent
    (env1 env2 : environment) (w : world) :
  has_credential env1 = true -> clean_chat_clicked env1 = true ->
  has_credential env2 = true -> clean_chat_clicked env2 = true ->
  let w1 := (main env1 w).2 in
  let w2 := (main env2 w1).2 in
  (forall s, messages (set_messages [] s) = Some [] /\
             set_messages [] (set_messages [] s) = set_messages [] s) /\
  (main env1 w).1 = Rerun /\ messages (session w1) = Some [] /\
  (main env2 w1).1 = Rerun /\ messages (session w2) = Some [] /\
  forall msg : message,
    (messages_append msg w1).1 = Returned tt /\
    messages (session (messages_append msg w1).2) = Some [msg] /\
    messages (session (messages_append msg w1).2) =
    messages (session (messages_append msg (init_state fresh_world).2).2).
Proof.
  intros H1 Hc1 H2 Hc2. cbn zeta.
  rewrite (main_clean_chat env1 w H1 Hc1). cbn [fst snd].
  rewrite (main_clean_chat env2 _ H2 Hc2). cbn [fst snd].
  repeat split.
Qed.

Lemma clean_chat_is_idempotent_witness :
  let env := Sample.env Sample.hello None true in
  let w := (main (Sample.env Sample.hello (Some "hi") false) fresh_world).2 in
  let w1 := (main env w).2 in
  let w2 := (main env w1).2 in
  (forall s, messages (set_messages [] s) = Some [] /\
             set_messages [] (set_messages [] s) = set_messages [] s) /\
  (main env w).1 = Rerun /\ messages (session w1) = Some [] /\
  (main env w1).1 = Rerun /\ messages (session w2) = Some [] /\
  forall msg : message,
    (messages_append msg w1).1 = Returned tt /\
    messages (session (messages_append msg w1).2) = Some [msg] /\
    messages (session (messages_append msg w1).2) =
    messages (session (messages_append msg (init_state fresh_world).2).2).
Proof.
  apply (clean_chat_is_idempotent
           (Sample.env Sample.hello None true) (Sample.env Sample.hello None true)
           (main (Sample.env Sample.hello (Some "hi") false) fresh_world).2);
    reflexivity.
Defined.

(** ** Credentials *)

Lemma main_outcome_with_credential (env : environment) (w : world) :
  has_credential env = true ->
  (main env w).1 = if clean_chat_clicked env then Rerun else Returned tt.
Proof.
  intros H. destruct (clean_chat_clicked env) eqn:Hc.
  - by rewrite main_clean_chat.
  - destruct (Py.truthy (chat_input env)) eqn:Hp.
    + destruct (chat_input env) as [p|] eqn:Hi; [|done].
      cbn in Hp. apply truthy_str_spec in Hp.
      by destruct (main_submit env w p H Hc Hi Hp) as (out & acts & _ & ->).
    + by rewrite main_idle.
Qed.

(** What [get_client] does, by what the secrets file and the environment
    hold under [OPENAI_API_KEY]. *)
Lemma get_client_resolution (env : environment) (w : world) :
  let missing :=
    Error "⚠️ Missing API key. Set OPENAI_API_KEY in .streamlit/secrets.toml or as an env var." in
  let stopped := (Stopped, World (session w) (ui w ++ [missing]) (outbox w)) in
  get_client env w =
  match secrets env with
  | None => (Raised no_secrets_file, w)
  | Some file =>
      match file !! "OPENAI_API_KEY" with
      | Some secret =>
          if Py.truthy_str secret then (Returned (Client (Some secret)), w) else stopped
      | None =>
          if Py.truthy (environ env !! "OPENAI_API_KEY")
          then (Returned (Client (environ env !! "OPENAI_API_KEY")), w)
          else stopped
      end
  end.
Proof.
  cbn zeta. destruct (secrets env) as [file|] eqn:Hf.
  - assert (Hc : credential env =
                 Py.or (file !! "OPENAI_API_KEY") (os_getenv env "OPENAI_API_KEY")).
    { unfold credential. by rewrite Hf. }
    unfold os_getenv in Hc. rewrite Hf in Hc. cbn [default] in Hc.
    destruct (file !! "OPENAI_API_KEY") as [secret|] eqn:Hk.
    + rewrite (lookup_union_Some_l _ _ _ _ Hk) in Hc. unfold Py.or in Hc. cbn in Hc.
      destruct (Py.truthy_str secret) eqn:Ht.
      * rewrite get_client_found; [by rewrite Hc|]. unfold has_credential. by rewrite Hc.
      * apply (get_client_missing env w file Hf). unfold has_credential. by rewrite Hc.
    + rewrite (lookup_union_r _ _ _ Hk) in Hc. unfold Py.or in Hc. cbn in Hc.
      destruct (Py.truthy (environ env !! "OPENAI_API_KEY")) eqn:Ht.
      * rewrite get_client_found; [by rewrite Hc|]. unfold has_credential. by rewrite Hc.
      * apply (get_client_missing env w file Hf). unfold has_credential. by rewrite Hc.
  - by apply get_client_no_file.
Qed.


(** Sample runs of the lookup with a secrets file: its key wins over the
    environment, and the environment is the fallback when it has none. *)
Example get_client_prefers_secrets :
  (get_client (Environment (Some {[ "OPENAI_API_KEY" := "from-secrets" ]})
                           {[ "OPENAI_API_KEY" := "from-env" ]}
                           "gpt-5" "low" "low" false None (fun _ _ => Refused "down"))
              fresh_world).1
  = Returned (Client (Some "from-secrets")).
Proof. reflexivity. Qed.

Example get_client_falls_back_to_environment :
  (get_client (Environment (Some ∅) {[ "OPENAI_API_KEY" := "from-env" ]}
                           "gpt-5" "low" "low" false None (fun _ _ => Refused "down"))
              fresh_world).1
  = Returned (Client (Some "from-env")).
Proof. reflexivity. Qed.

Example main_stops_without_key :
  main (Environment (Some ∅) ∅ "gpt-5" "low" "low" false (Some "hi")
                    (fun _ _ => Sample.hello))
       fresh_world
  = (Stopped,
     World (SessionState (Some []) (Some "gpt-5-nano") (Some (1 # 2)%Q) None None)
           [PageConfig;
            Error "⚠️ Missing API key. Set OPENAI_API_KEY in .streamlit/secrets.toml or as an env var."]
           []).
Proof. reflexivity. Qed.

(** ** Temperature *)

Lemma initialised_agree (s1 s2 : session_state) :
  same_but_temperature s1 s2 -> same_but_temperature (initialised s1) (initialised s2).
Proof. intros (Hm & Hd & Hv & Hr). unfold initialised. repeat split; cbn; congruence. Qed.

Lemma configured_agree (env : environment) (s1 s2 : session_state) :
  same_but_temperature s1 s2 ->
  same_but_temperature (configured env s1) (configured env s2).
Proof. intros (Hm & Hd & Hv & Hr). repeat split; cbn; congruence. Qed.

Lemma set_messages_agree (ms : list message) (s1 s2 : session_state) :
  same_but_temperature s1 s2 ->
  same_but_temperature (set_messages ms s1) (set_messages ms s2).
Proof. intros (Hm & Hd & Hv & Hr). repeat split; cbn; congruence. Qed.

Lemma agree_transcript (w1 w2 : world) : agree w1 w2 -> transcript w1 = transcript w2.
Proof. intros ((Hm & _) & _). unfold transcript. by rewrite Hm. Qed.

Lemma stream_response_agree (env : environment) (client : OpenAI)
    (ms : list message) (md vb re : string) (w1 w2 : world) :
  agree w1 w2 ->
  (stream_response env client ms md vb re w1).1 =
  (stream_response env client ms md vb re w2).1 /\
  agree (stream_response env client ms md vb re w1).2
        (stream_response env client ms md vb re w2).2.
Proof.
  intros (Hs & Hu & Ho).
  destruct (stream_response_frame env client ms md vb re) as (out & acts & _ & Hrun).
  rewrite !Hrun. cbn [fst snd]. split; [done|].
  repeat split; cbn [session ui outbox]; try apply Hs; congruence.
Qed.

Lemma main_agree (env : environment) (w1 w2 : world) :
  agree w1 w2 ->
  (main env w1).1 = (main env w2).1 /\ agree (main env w1).2 (main env w2).2.
Proof.
  intros Ha. pose proof (agree_transcript w1 w2 Ha) as Ht.
  destruct Ha as (Hs & Hu & Ho).
  pose proof (configured_agree env _ _ (initialised_agree _ _ Hs)) as Hc.
  destruct (has_credential env) eqn:H.
  - destruct (clean_chat_clicked env) eqn:Hb.
    + rewrite !main_clean_chat by done. cbn [fst snd]. split; [done|].
      split; [by apply set_messages_agree|]. cbn [ui outbox]. split; congruence.
    + destruct (Py.truthy (chat_input env)) eqn:Hp.
      * destruct (chat_input env) as [p|] eqn:Hi; [|done].
        cbn in Hp. apply truthy_str_spec in Hp.
        destruct (main_submit env w1 p H Hb Hi Hp) as (out1 & acts1 & Hrun1 & ->).
        destruct (main_submit env w2 p H Hb Hi Hp) as (out2 & acts2 & Hrun2 & ->).
        cbn zeta in *. specialize (Hrun1 w1). rewrite Ht, Hrun2 in Hrun1.
        injection Hrun1 as -> Hacts _. apply app_inv_head in Hacts as ->.
        cbn [fst snd]. split; [done|]. rewrite Ht.
        split; [by apply set_messages_agree|]. cbn [ui outbox].
        unfold request_for. rewrite Ht. split; congruence.
      * rewrite !main_idle by done. cbn [fst snd]. split; [done|].
        split; [done|]. cbn [ui outbox]. rewrite Ht. split; congruence.
  - destruct (secrets env) as [file|] eqn:Hf.
    + rewrite !(main_missing_credential _ _ file) by done. cbn [fst snd].
      split; [done|]. split; [by apply initialised_agree|].
      cbn [ui outbox]. split; congruence.
    + rewrite !main_no_secrets_file by done. cbn [fst snd].
      split; [done|]. split; [by apply initialised_agree|].
      cbn [ui outbox]. split; congruence.
Qed.

(** C10.  [init_state] sets [temperature] to 0.5 in a fresh session, and
    nothing reads it afterwards: from two worlds that differ at most in
    [temperature], a run of the script ends the same way, with the same page,
    the same requests sent and the same transcript, and so does a call of
    [stream_response], which returns the same text. *)
Theorem temperature_is_never_read
    (env : environment) (w1 w2 : world) :
  agree w1 w2 ->
  temperature (session (init_state fresh_world).2) = Some (1 # 2)%Q /\
  (main env w1).1 = (main env w2).1 /\
  agree (main env w1).2 (main env w2).2 /\
  outbox (main env w1).2 = outbox (main env w2).2 /\
  forall (client : OpenAI) (ms : list message) (md vb re : string),
    (stream_response env client ms md vb re w1).1 =
    (stream_response env client ms md vb re w2).1 /\
    outbox (stream_response env client ms md vb re w1).2 =
    outbox (stream_response env client ms md vb re w2).2.
Proof.
  intros Ha. split; [reflexivity|].
  destruct (main_agree env w1 w2 Ha) as (Hres & Hw).
  split; [done|]. split; [done|]. split; [apply Hw|].
  intros client ms md vb re.
  destruct (stream_response_agree env client ms md vb re w1 w2 Ha) as (Hout & Hw').
  split; [done | apply Hw'].
Qed.

Lemma temperature_is_never_read_witness :
  let env := Sample.env Sample.hello (Some "hi") false in
  let hot := World (set_temperature (9 # 10)%Q (session Sample.ready)) [] [] in
  temperature (session (init_state fresh_world).2) = Some (1 # 2)%Q /\
  (main env Sample.ready).1 = (main env hot).1 /\
  agree (main env Sample.ready).2 (main env hot).2 /\
  outbox (main env Sample.ready).2 = outbox (main env hot).2 /\
  forall (client : OpenAI) (ms : list message) (md vb re : string),
    (stream_response env client ms md vb re Sample.ready).1 =
    (stream_response env client ms md vb re hot).1 /\
    outbox (stream_response env client ms md vb re Sample.ready).2 =
    outbox (stream_response env client ms md vb re hot).2.
Proof.
  apply (temperature_is_never_read
           (Sample.env Sample.hello (Some "hi") false)
           Sample.ready
           (World (set_temperature (9 # 10)%Q (session Sample.ready)) [] [])).
  repeat split; reflexivity.
Defined.

(** * Further properties of the script *)

(** ** Page elements *)

Lemma markdowns_app (xs ys : list ui_action) :
  markdowns (xs ++ ys) = markdowns xs ++ markdowns ys.
Proof. apply omap_app. Qed.


Lemma history_ui_cons (msg : message) (ms : list message) :
  history_ui (msg :: ms) =
  ChatMessage (role msg) :: Markdown (content msg) :: history_ui ms.
Proof. reflexivity. Qed.

Lemma markdowns_history (ms : list message) : markdowns (history_ui ms) = content <$> ms.
Proof.
  induction ms as [|msg ms IH]; [done|].
  rewrite history_ui_cons. cbn. by rewrite <- IH.
Qed.


Lemma rendered_history (ms : list message) : rendered (history_ui ms) = [].
Proof. induction ms as [|msg ms IH]; [done|]. by rewrite history_ui_cons. Qed.

Lemma errors_history (ms : list message) : errors (history_ui ms) = [].
Proof. induction ms as [|msg ms IH]; [done|]. by rewrite history_ui_cons. Qed.

Lemma length_history (ms : list message) : length (history_ui ms) = 2 * length ms.
Proof.
  induction ms as [|msg ms IH]; [done|].
  rewrite history_ui_cons. cbn [length]. rewrite IH. lia.
Qed.

Lemma markdowns_placeholder (ps : list string) : markdowns (PlaceholderMarkdown <$> ps) = [].
Proof. induction ps as [|p ps IH]; [done|]. exact IH. Qed.

(** ** Session defaults *)

(** X1.  [init_state] only fills in what is absent: an attribute that is
    present keeps its value, the three defaults are the empty history,
    ["gpt-5-nano"] and 0.5, the two sidebar attributes, the page and the
    requests are not touched, and running it again changes nothing. *)
Theorem init_state_fills_only_absent (w : world) :
  let w' := (init_state w).2 in
  (init_state w).1 = Returned tt /\
  messages (session w') = Some (default [] (messages (session w))) /\
  model (session w') = Some (default "gpt-5-nano" (model (session w))) /\
  temperature (session w') = Some (default (1 # 2)%Q (temperature (session w))) /\
  verbosity (session w') = verbosity (session w) /\
  reasoning_effort (session w') = reasoning_effort (session w) /\
  ui w' = ui w /\ outbox w' = outbox w /\
  init_state w' = (Returned tt, w').
Proof.
  cbn zeta. rewrite init_state_unfold. cbn [fst snd session ui outbox initialised
    messages model temperature verbosity reasoning_effort].
  repeat split.
Qed.

(** ** History *)

Lemma history_ui_lookup (ms : list message) (i : nat) (msg : message) :
  ms !! i = Some msg ->
  history_ui ms !! (2 * i) = Some (ChatMessage (role msg)) /\
  history_ui ms !! (2 * i + 1) = Some (Markdown (content msg)).
Proof.
  revert i. induction ms as [|m0 ms IH]; intros i Hi; [done|].
  rewrite history_ui_cons. destruct i as [|i].
  - injection Hi as ->. by split.
  - replace (2 * S i) with (S (S (2 * i))) by lia. cbn [Nat.add lookup list_lookup].
    apply IH. exact Hi.
Qed.

(** X2.  [render_history] replays the stored messages in order and writes
    nothing else: the elements it adds to the page are, for the message at
    index [i], the chat container with its role at position [2i] and the
    markdown element with its content at position [2i+1]; session and
    requests are unchanged.  Called in a session without [messages] it raises
    and writes nothing. *)
Theorem render_history_replays_in_order (w : world) :
  let page := ui_since w (render_history w).2 in
  match messages (session w) with
  | Some ms =>
      render_history w =
        (Returned tt, World (session w) (ui w ++ page) (outbox w)) /\
      page = history_ui ms /\
      length page = 2 * length ms /\
      forall (i : nat) (msg : message),
        ms !! i = Some msg ->
        page !! (2 * i) = Some (ChatMessage (role msg)) /\
        page !! (2 * i + 1) = Some (Markdown (content msg))
  | None => (exists err, (render_history w).1 = Raised err) /\ (render_history w).2 = w
  end.
Proof.
  cbn zeta. destruct (messages (session w)) as [ms|] eqn:Hms.
  - rewrite (render_history_unfold ms w Hms). cbn [fst snd session outbox].
    rewrite ui_since_app, length_history.
    split; [done|]. split; [done|]. split; [done|].
    intros i msg Hi. by apply history_ui_lookup.
  - unfold render_history, read, mbind, script_bind. rewrite Hms. eauto.
Qed.

(** ** The four ways a run goes *)

Lemma main_cases (env : environment) (w : world) :
  (secrets env = None /\ has_credential env = false /\
   main env w =
   (Raised no_secrets_file,
    World (initialised (session w)) (ui w ++ [PageConfig]) (outbox w))) \/
  (has_credential env = false /\
   main env w =
   (Stopped,
    World (initialised (session w))
          (ui w ++ [PageConfig;
                    Error "⚠️ Missing API key. Set OPENAI_API_KEY in .streamlit/secrets.toml or as an env var."])
          (outbox w))) \/
  (has_credential env = true /\ clean_chat_clicked env = true /\
   main env w =
   (Rerun,
    World (set_messages [] (configured env (initialised (session w))))
          (ui w ++ header_ui) (outbox w))) \/
  (has_credential env = true /\ clean_chat_clicked env = false /\
   Py.truthy (chat_input env) = false /\
   main env w =
   (Returned tt,
    World (configured env (initialised (session w)))
          (ui w ++ header_ui ++ [Divider] ++ history_ui (transcript w))
          (outbox w))) \/
  (exists (prompt out : string) (acts : list ui_action),
      submits env prompt /\
      (forall w', stream_response env (Client (credential env))
                    (transcript w ++ [Message "user" prompt])
                    (selected_model env) (selected_verbosity env)
                    (selected_reasoning_effort env) w' =
                  (Returned out,
                   World (session w') (ui w' ++ acts)
                         (outbox w' ++ [request_for env w prompt]))) /\
      main env w =
      (Returned tt,
       World (set_messages
                (if Py.truthy_str out
                 then (transcript w ++ [Message "user" prompt])
                        ++ [Message "assistant" out]
                 else transcript w ++ [Message "user" prompt])
                (configured env (initialised (session w))))
             (ui w ++ header_ui ++ [Divider] ++ history_ui (transcript w)
                   ++ [ChatMessage "user"; Markdown prompt] ++ acts)
             (outbox w ++ [request_for env w prompt]))).
Proof.
  destruct (has_credential env) eqn:H.
  - destruct (clean_chat_clicked env) eqn:Hc.
    + right. right. left. by rewrite main_clean_chat.
    + destruct (Py.truthy (chat_input env)) eqn:Hp.
      * destruct (chat_input env) as [p|] eqn:Hi; [|done].
        cbn in Hp. apply truthy_str_spec in Hp.
        destruct (main_submit env w p H Hc Hi Hp) as (out & acts & Hrun & Hmain).
        do 4 right. by exists p, out, acts.
      * do 3 right. left. by rewrite main_idle.
  - destruct (secrets env) as [file|] eqn:Hf.
    + right. left. by rewrite (main_missing_credential _ _ file).
    + left. by rewrite main_no_secrets_file.
Qed.

Lemma transcript_initialised (s : session_state) (u : list ui_action) (o : list request) :
  transcript (World (initialised s) u o) = default [] (messages s).
Proof. reflexivity. Qed.

Lemma transcript_configured (env : environment) (s : session_state)
    (u : list ui_action) (o : list request) :
  transcript (World (configured env (initialised s)) u o) = default [] (messages s).
Proof. reflexivity. Qed.

(** What a run does to the transcript. *)
Lemma main_transcript_cases (env : environment) (w : world) :
  transcript (main env w).2 = transcript w \/
  (has_credential env = true /\ clean_chat_clicked env = true /\
   transcript (main env w).2 = []) \/
  (exists prompt, submits env prompt /\
     transcript (main env w).2 = transcript w ++ [Message "user" prompt]) \/
  (exists prompt reply, submits env prompt /\ reply <> "" /\
     transcript (main env w).2 =
       transcript w ++ [Message "user" prompt; Message "assistant" reply]).
Proof.
  destruct (main_cases env w)
    as [(Hf & H & ->)|[(H & ->)|[(H & Hc & ->)|[(H & Hc & Hp & ->)|(p & out & acts & Hs & _ & ->)]]]].
  - by left.
  - by left.
  - right. by left.
  - by left.
  - cbn [snd]. unfold transcript at 1. cbn [session set_messages messages default].
    destruct (Py.truthy_str out) eqn:Ho.
    + apply truthy_str_spec in Ho. do 3 right. exists p, out.
      by rewrite <- app_assoc.
    + right. right. left. by exists p.
Qed.

(** ** Reruns *)



(** X4.  Of the session, a run reads only the transcript: from two worlds
    with the same transcript, page and requests, whatever their stored
    [model], [verbosity], [reasoning_effort] and [temperature], the run ends
    the same way with the same page, requests and transcript; and with a key
    the session ends up holding the three sidebar selections of the run. *)
Theorem main_reads_only_the_transcript (env : environment) (w1 w2 : world) :
  transcript w1 = transcript w2 -> ui w1 = ui w2 -> outbox w1 = outbox w2 ->
  (main env w1).1 = (main env w2).1 /\
  ui (main env w1).2 = ui (main env w2).2 /\
  outbox (main env w1).2 = outbox (main env w2).2 /\
  transcript (main env w1).2 = transcript (main env w2).2 /\
  (has_credential env = true ->
   model (session (main env w1).2) = Some (selected_model env) /\
   verbosity (session (main env w1).2) = Some (selected_verbosity env) /\
   reasoning_effort (session (main env w1).2) = Some (selected_reasoning_effort env)).
Proof.
  intros Ht Hu Ho.
  destruct (main_cases env w1)
    as [(Hf & H & E1)|[(H & E1)|[(H & Hc & E1)|[(H & Hc & Hp & E1)|(p & out & acts & Hs & Hrun & E1)]]]].
  - rewrite E1, main_no_secrets_file by done. cbn [fst snd ui outbox].
    rewrite !transcript_initialised. fold (transcript w1) (transcript w2).
    rewrite Hu, Ho, Ht. repeat split; congruence.
  - destruct (secrets env) as [file|] eqn:Hf.
    + rewrite E1, (main_missing_credential _ _ file) by done.
      cbn [fst snd ui outbox].
      rewrite !transcript_initialised. fold (transcript w1) (transcript w2).
      rewrite Hu, Ho, Ht. repeat split; congruence.
    + rewrite (main_no_secrets_file env w1) in E1 by done. discriminate.
  - rewrite E1, main_clean_chat by done. cbn [fst snd ui outbox].
    rewrite Hu, Ho. repeat split.
  - rewrite E1, main_idle by done. cbn [fst snd ui outbox].
    rewrite !transcript_configured. fold (transcript w1) (transcript w2).
    rewrite Hu, Ho, Ht. repeat split.
  - destruct Hs as (H & Hc & Hi & Hne).
    destruct (main_submit env w2 p H Hc Hi Hne) as (out2 & acts2 & Hrun2 & E2).
    cbn zeta in *. specialize (Hrun w1). rewrite Ht, Hrun2 in Hrun.
    injection Hrun as <- Hacts _. apply app_inv_head in Hacts as <-.
    rewrite E1, E2. cbn [fst snd ui outbox]. unfold request_for.
    rewrite Hu, Ho, Ht. repeat split.
Qed.

Lemma main_reads_only_the_transcript_witness :
  let env := Sample.env Sample.hello (Some "hi") false in
  let other := World (SessionState (Some []) (Some "gpt-5") (Some (9 # 10)%Q)
                                   (Some "high") None) [] [] in
  (main env fresh_world).1 = (main env other).1 /\
  ui (main env fresh_world).2 = ui (main env other).2 /\
  outbox (main env fresh_world).2 = outbox (main env other).2 /\
  transcript (main env fresh_world).2 = transcript (main env other).2 /\
  (has_credential env = true ->
   model (session (main env fresh_world).2) = Some (selected_model env) /\
   verbosity (session (main env fresh_world).2) = Some (selected_verbosity env) /\
   reasoning_effort (session (main env fresh_world).2)
     = Some (selected_reasoning_effort env)).
Proof.
  apply (main_reads_only_the_transcript
           (Sample.env Sample.hello (Some "hi") false) fresh_world
           (World (SessionState (Some []) (Some "gpt-5") (Some (9 # 10)%Q)
                                (Some "high") None) [] []));
    reflexivity.
Defined.

(** ** Requests *)


(** ** The shape of the transcript *)

Lemma conversation_well_formed (ms : list message) :
  conversation ms -> Forall well_formed ms.
Proof.
  induction 1 as [|ms p _ IH Hp|ms p a _ IH Hp Ha].
  - constructor.
  - apply Forall_app. split; [done|].
    apply Forall_cons_2; [|constructor]. split; [by left | done].
  - apply Forall_app. split; [done|].
    apply Forall_cons_2; [split; [by left | done]|].
    apply Forall_cons_2; [|constructor]. split; [by right | done].
Qed.

Lemma main_conversation (env : environment) (w : world) :
  conversation (transcript w) -> conversation (transcript (main env w).2).
Proof.
  intros Hw.
  destruct (main_transcript_cases env w)
    as [->|[(_ & _ & ->)|[(p & Hs & ->)|(p & a & Hs & Ha & ->)]]].
  - done.
  - constructor.
  - constructor; [done|]. apply Hs.
  - constructor; [done| |done]. apply Hs.
Qed.

Lemma runs_cons (env : environment) (envs : list environment) (w : world) :
  runs (env :: envs) w = runs envs (main env w).2.
Proof. reflexivity. Qed.

Lemma runs_conversation (envs : list environment) (w : world) :
  conversation (transcript w) -> conversation (transcript (runs envs w)).
Proof.
  revert w. induction envs as [|env envs IH]; intros w Hw; [done|].
  rewrite runs_cons. apply IH. by apply main_conversation.
Qed.

(** X6.  After any sequence of runs of the script from a fresh session,
    whatever the widgets and the endpoint did in each, the transcript is made
    of turns: every message has role ["user"] or ["assistant"] and a
    non-empty content, and every assistant message directly follows the user
    message it answers. *)
Theorem reachable_transcript_is_a_conversation (envs : list environment) :
  conversation (transcript (runs envs fresh_world)) /\
  Forall well_formed (transcript (runs envs fresh_world)).
Proof.
  assert (H : conversation (transcript (runs envs fresh_world))).
  { apply runs_conversation. constructor. }
  split; [done|]. by apply conversation_well_formed.
Qed.

(** X7.  Unless the "Clean chat" button is clicked, a run only appends to
    the transcript: the earlier messages stay in place, at most two messages
    are added, and when something is added the first new message is the
    user's prompt. *)
Theorem transcript_grows_by_append (env : environment) (w : world) :
  clean_chat_clicked env = false ->
  let before := transcript w in
  let after := transcript (main env w).2 in
  before `prefix_of` after /\
  length after <= length before + 2 /\
  (after <> before ->
   exists prompt, chat_input env = Some prompt /\
                  after !! length before = Some (Message "user" prompt)).
Proof.
  intros Hc. cbn zeta.
  destruct (main_transcript_cases env w)
    as [->|[(_ & Hc' & _)|[(p & Hs & ->)|(p & a & Hs & Ha & ->)]]].
  - split; [done|]. split; [lia|]. done.
  - congruence.
  - split; [by apply prefix_app_r|]. split; [rewrite length_app; cbn; lia|].
    intros _. exists p. split; [apply Hs|].
    by rewrite lookup_app_r, Nat.sub_diag.
  - split; [by apply prefix_app_r|]. split; [rewrite length_app; cbn; lia|].
    intros _. exists p. split; [apply Hs|].
    by rewrite lookup_app_r, Nat.sub_diag.
Qed.

Lemma transcript_grows_by_append_witness :
  let env := Sample.env Sample.hello (Some "hi") false in
  let before := transcript Sample.ready in
  let after := transcript (main env Sample.ready).2 in
  before `prefix_of` after /\
  length after <= length before + 2 /\
  (after <> before ->
   exists prompt, chat_input env = Some prompt /\
                  after !! length before = Some (Message "user" prompt)).
Proof.
  apply (transcript_grows_by_append
           (Sample.env Sample.hello (Some "hi") false) Sample.ready).
  reflexivity.
Defined.

(** X8.  No run changes a stored [temperature]: after a run it is the value
    the session held before, or 0.5 when it held none; the sidebar has no
    control that writes it. *)
Theorem main_never_writes_temperature (env : environment) (w : world) :
  temperature (session (main env w).2) =
  Some (default (1 # 2)%Q (temperature (session w))).
Proof.
  destruct (main_cases env w)
    as [(Hf & H & ->)|[(H & ->)|[(H & Hc & ->)|[(H & Hc & Hp & ->)|(p & out & acts & Hs & _ & ->)]]]];
    reflexivity.
Qed.

(** ** More on the streaming accumulator *)





(** X9.  Whatever the endpoint does, also when it refuses the connection or
    raises while it is read, [stream_response] returns normally, leaves the
    session as it is, hands exactly one request, built from its arguments, to
    the client, and opens the assistant's chat container with an empty
    placeholder; it returns a non-empty text only when no exception was
    raised. *)
Theorem stream_response_always_returns
    (env : environment) (client : OpenAI) (ms : list message) (m v r : string)
    (w : world) :
  let run := stream_response env client ms m v r w in
  exists out : string,
    run.1 = Returned out /\
    session run.2 = session w /\
    outbox run.2 = outbox w ++ [Request m ms v r] /\
    take 2 (ui_since w run.2) = [ChatMessage "assistant"; Empty] /\
    (out <> "" -> failure (endpoint env client (Request m ms v r)) = None).
Proof.
  cbn zeta. destruct (endpoint env client (Request m ms v r)) as [err|items] eqn:E.
  - exists "". rewrite (stream_response_refused _ _ _ _ _ _ err) by done.
    cbn [fst snd session outbox]. rewrite ui_since_app. by repeat split.
  - destruct (stream_cases items) as [(evs & -> & Hn)|(evs & err & rest & -> & Hs)].
    + exists (join (fragments evs)).
      rewrite (stream_response_success _ _ _ _ _ _ evs) by done.
      cbn [fst snd session outbox]. rewrite ui_since_app. by repeat split.
    + exists "". rewrite (stream_response_cut _ _ _ _ _ _ evs err rest) by done.
      cbn [fst snd session outbox]. rewrite ui_since_app. by repeat split.
Qed.

(** X10.  When the stream raises after some events, the text accumulated so
    far stays on the page: every prefix of the fragments received was
    rendered, the error notification is the last element written, and the
    events that would have followed the exception play no role. *)
Theorem failed_stream_keeps_partial_text_on_page
    (env env' : environment) (client : OpenAI) (ms : list message) (m v r : string)
    (evs : list event) (err : string) (rest rest' : list stream_item) (w : world) :
  endpoint env client (Request m ms v r)
    = Opened ((Yield <$> evs) ++ Raise err :: rest) ->
  endpoint env' client (Request m ms v r)
    = Opened ((Yield <$> evs) ++ Raise err :: rest') ->
  let run := stream_response env client ms m v r w in
  rendered (ui_since w run.2) = proper_prefixes (fragments evs) /\
  last (ui_since w run.2) = Some (Error ("❌ Error while generating: " +:+ err)) /\
  run = stream_response env' client ms m v r w.
Proof.
  intros H H'. cbn zeta.
  rewrite (stream_response_cut _ _ _ _ _ _ evs err rest) by done.
  rewrite (stream_response_cut _ _ _ _ _ _ evs err rest') by done.
  cbn [snd]. rewrite ui_since_app, !rendered_app, rendered_placeholder.
  change (rendered [Error _]) with (@nil string). rewrite app_nil_r.
  split; [done|]. split; [|done].
  by rewrite !(@app_assoc ui_action), last_snoc.
Qed.

Lemma failed_stream_keeps_partial_text_on_page_witness :
  let env := Sample.env Sample.hello_cut (Some "hi") false in
  let env' := Sample.env
                (Opened [Yield Sample.created; Yield (Sample.fragment "Hel");
                         Yield (Sample.fragment "lo"); Raise "connection reset";
                         Yield (Sample.fragment "!"); Yield completed])
                (Some "hi") false in
  let run := stream_response env Sample.client [Message "user" "hi"]
               "gpt-5-nano" "low" "minimal" Sample.ready in
  rendered (ui_since Sample.ready run.2) = ["Hel"; "Hello"] /\
  last (ui_since Sample.ready run.2)
    = Some (Error "❌ Error while generating: connection reset") /\
  run = stream_response env' Sample.client [Message "user" "hi"]
          "gpt-5-nano" "low" "minimal" Sample.ready.
Proof.
  apply (failed_stream_keeps_partial_text_on_page
           (Sample.env Sample.hello_cut (Some "hi") false)
           (Sample.env
              (Opened [Yield Sample.created; Yield (Sample.fragment "Hel");
                       Yield (Sample.fragment "lo"); Raise "connection reset";
                       Yield (Sample.fragment "!"); Yield completed])
              (Some "hi") false)
           Sample.client [Message "user" "hi"] "gpt-5-nano" "low" "minimal"
           [Sample.created; Sample.fragment "Hel"; Sample.fragment "lo"]
           "connection reset" [] [Yield (Sample.fragment "!"); Yield completed]
           Sample.ready);
    reflexivity.
Defined.



(** X12.  An event whose type is not [response.output_text.delta] leaves no
    trace: inserting one anywhere in a stream that is read to its end changes
    neither the text returned nor anything written to the page. *)
Theorem other_events_leave_no_trace
    (env env' : environment) (client : OpenAI) (ms : list message) (m v r : string)
    (evs1 evs2 : list event) (ev : event) (w : world) :
  type ev <> "response.output_text.delta" ->
  endpoint env client (Request m ms v r) = Opened (Yield <$> (evs1 ++ evs2)) ->
  endpoint env' client (Request m ms v r) = Opened (Yield <$> (evs1 ++ ev :: evs2)) ->
  stream_response env client ms m v r w = stream_response env' client ms m v r w.
Proof.
  intros Hty H H'.
  rewrite (stream_response_success _ _ _ _ _ _ (evs1 ++ evs2)) by done.
  rewrite (stream_response_success _ _ _ _ _ _ (evs1 ++ ev :: evs2)) by done.
  by rewrite !fragments_app, (fragments_cons_other ev evs2).
Qed.

Lemma other_events_leave_no_trace_witness :
  stream_response
    (Sample.env (Opened (Yield <$> [Sample.fragment "Hel"; Sample.fragment "lo"]))
                (Some "hi") false)
    Sample.client [Message "user" "hi"] "gpt-5-nano" "low" "minimal" Sample.ready
  = stream_response
      (Sample.env (Opened (Yield <$> [Sample.fragment "Hel";
                                      Event "response.output_text.done" "Hello";
                                      Sample.fragment "lo"]))
                  (Some "hi") false)
      Sample.client [Message "user" "hi"] "gpt-5-nano" "low" "minimal" Sample.ready.
Proof.
  apply (other_events_leave_no_trace
           (Sample.env (Opened (Yield <$> [Sample.fragment "Hel"; Sample.fragment "lo"]))
                       (Some "hi") false)
           (Sample.env (Opened (Yield <$> [Sample.fragment "Hel";
                                           Event "response.output_text.done" "Hello";
                                           Sample.fragment "lo"]))
                       (Some "hi") false)
           Sample.client [Message "user" "hi"] "gpt-5-nano" "low" "minimal"
           [Sample.fragment "Hel"] [Sample.fragment "lo"]
           (Event "response.output_text.done" "Hello") Sample.ready);
    [discriminate | reflexivity | reflexivity].
Defined.

(** ** More on credentials *)

(** X13.  A client returned by [get_client] always carries a non-empty key;
    there is then a secrets file, and the key is its value when it has one,
    else the value of the environment variable.  The lookup writes nothing to
    the page and leaves session and requests as they are. *)
Theorem get_client_key_is_nonempty
    (env : environment) (w w' : world) (client : OpenAI) :
  get_client env w = (Returned client, w') ->
  w' = w /\
  exists (file : gmap string string) (key : string),
    secrets env = Some file /\
    api_key client = Some key /\ key <> "" /\
    (file !! "OPENAI_API_KEY" = Some key \/
     (file !! "OPENAI_API_KEY" = None /\ environ env !! "OPENAI_API_KEY" = Some key)).
Proof.
  rewrite get_client_resolution. cbn zeta.
  destruct (secrets env) as [file|]; [|done].
  destruct (file !! "OPENAI_API_KEY") as [secret|] eqn:Hk.
  - destruct (Py.truthy_str secret) eqn:Ht; [|done].
    intros [= <- <-]. split; [done|]. exists file, secret.
    apply truthy_str_spec in Ht. split_and!; auto.
  - destruct (environ env !! "OPENAI_API_KEY") as [key|] eqn:He; [|done].
    cbn [Py.truthy]. destruct (Py.truthy_str key) eqn:Ht; [|done].
    intros [= <- <-]. split; [done|]. exists file, key.
    apply truthy_str_spec in Ht. split_and!; auto.
Qed.

Lemma get_client_key_is_nonempty_witness :
  let env := Environment (Some ∅) {[ "OPENAI_API_KEY" := "from-env" ]}
                         "gpt-5" "low" "low" false None (fun _ _ => Refused "down") in
  fresh_world = fresh_world /\
  exists (file : gmap string string) (key : string),
    secrets env = Some file /\
    api_key (Client (Some "from-env")) = Some key /\ key <> "" /\
    (file !! "OPENAI_API_KEY" = Some key \/
     (file !! "OPENAI_API_KEY" = None /\ environ env !! "OPENAI_API_KEY" = Some key)).
Proof.
  apply (get_client_key_is_nonempty
           (Environment (Some ∅) {[ "OPENAI_API_KEY" := "from-env" ]}
                        "gpt-5" "low" "low" false None (fun _ _ => Refused "down"))
           fresh_world fresh_world (Client (Some "from-env"))).
  reflexivity.
Defined.

(** ** Turns that end without a reply *)

Lemma main_submit_failed (env : environment) (w : world) (prompt err : string) :
  submits env prompt ->
  failure (endpoint env (Client (credential env)) (request_for env w prompt)) = Some err ->
  transcript (main env w).2 = transcript w ++ [Message "user" prompt].
Proof.
  intros Hs Hfail.
  destruct (main_submit_transcript env w prompt Hs) as (out & Hout & _ & _ & ->).
  destruct (stream_response_frame env (Client (credential env))
              (transcript w ++ [Message "user" prompt])
              (selected_model env) (selected_verbosity env)
              (selected_reasoning_effort env)) as (out' & acts & Hempty & Hrun).
  specialize (Hout w). rewrite Hrun in Hout. cbn [fst] in Hout. injection Hout as ->.
  fold (request_for env w prompt) in Hempty. rewrite Hfail in Hempty.
  rewrite Hempty by done. done.
Qed.

(** X14.  A turn whose stream fails still keeps the user's prompt in the
    transcript, without a reply; the request of the next submission
    therefore carries the two prompts one after the other, as two
    consecutive user messages. *)
Theorem failed_turn_prompt_is_sent_again
    (env1 env2 : environment) (p1 p2 err : string) (w : world) :
  submits env1 p1 -> submits env2 p2 ->
  failure (endpoint env1 (Client (credential env1)) (request_for env1 w p1)) = Some err ->
  let w1 := (main env1 w).2 in
  transcript w1 = transcript w ++ [Message "user" p1] /\
  outbox (main env2 w1).2 =
    outbox w1 ++
    [Request (selected_model env2)
             (transcript w ++ [Message "user" p1; Message "user" p2])
             (selected_verbosity env2) (selected_reasoning_effort env2)].
Proof.
  intros H1 H2 Hfail. cbn zeta.
  pose proof (main_submit_failed env1 w p1 err H1 Hfail) as Ht.
  split; [done|].
  destruct (main_submit_transcript env2 (main env1 w).2 p2 H2) as (_ & _ & _ & -> & _).
  unfold request_for. by rewrite Ht, <- app_assoc.
Qed.

Lemma failed_turn_prompt_is_sent_again_witness :
  let env1 := Sample.env Sample.hello_cut (Some "hi") false in
  let env2 := Sample.env Sample.hello (Some "are you there?") false in
  let w1 := (main env1 fresh_world).2 in
  transcript w1 = transcript fresh_world ++ [Message "user" "hi"] /\
  outbox (main env2 w1).2 =
    outbox w1 ++
    [Request (selected_model env2)
             (transcript fresh_world
                ++ [Message "user" "hi"; Message "user" "are you there?"])
             (selected_verbosity env2) (selected_reasoning_effort env2)].
Proof.
  apply (failed_turn_prompt_is_sent_again
           (Sample.env Sample.hello_cut (Some "hi") false)
           (Sample.env Sample.hello (Some "are you there?") false)
           "hi" "are you there?" "connection reset" fresh_world).
  - split; [reflexivity | split; [reflexivity | split; [reflexivity | discriminate]]].
  - split; [reflexivity | split; [reflexivity | split; [reflexivity | discriminate]]].
  - reflexivity.
Defined.

(** ** What is shown and what is saved *)

Lemma transcript_set_messages (ms : list message) (s : session_state)
    (u : list ui_action) (o : list request) :
  transcript (World (set_messages ms s) u o) = ms.
Proof. reflexivity. Qed.

Lemma rendered_assistant_block (ps : list string) :
  rendered (ChatMessage "assistant" :: Empty :: (PlaceholderMarkdown <$> ps)) = ps.
Proof. exact (rendered_placeholder ps). Qed.

Lemma markdowns_assistant_block (ps : list string) :
  markdowns (ChatMessage "assistant" :: Empty :: (PlaceholderMarkdown <$> ps)) = [].
Proof. exact (markdowns_placeholder ps). Qed.

Lemma errors_assistant_block (ps : list string) :
  errors (ChatMessage "assistant" :: Empty :: (PlaceholderMarkdown <$> ps)) = [].
Proof. exact (errors_placeholder ps). Qed.

(** X15.  In a submission whose stream is read to its end with a non-empty
    text, the message saved as the assistant's turn is the value last shown
    in the placeholder, and it is the last message of the transcript; the
    prompt was shown once, as the only markdown element after the replay of
    the earlier transcript. *)
Theorem saved_reply_is_last_rendered
    (env : environment) (w : world) (prompt : string) (evs : list event) :
  submits env prompt ->
  endpoint env (Client (credential env)) (request_for env w prompt)
    = Opened (Yield <$> evs) ->
  join (fragments evs) <> "" ->
  let w' := (main env w).2 in
  exists reply : string,
    last (rendered (ui_since w w')) = Some reply /\
    last (transcript w') = Some (Message "assistant" reply) /\
    markdowns (ui_since w w') = (content <$> transcript w) ++ [prompt] /\
    errors (ui_since w w') = [].
Proof.
  intros Hs Hopen Hne. cbn zeta. exists (join (fragments evs)).
  destruct Hs as (H & Hc & Hi & Hp).
  destruct (main_submit env w prompt H Hc Hi Hp) as (out & acts & Hrun & ->).
  cbn zeta in Hrun. specialize (Hrun w).
  rewrite (stream_response_success _ _ _ _ _ _ evs) in Hrun by exact Hopen.
  injection Hrun as <- Hacts. apply app_inv_head in Hacts as <-.
  apply truthy_str_spec in Hne as Hne'. rewrite Hne'.
  cbn [snd]. rewrite ui_since_app.
  rewrite transcript_set_messages.
  rewrite !rendered_app, !markdowns_app, !errors_app.
  rewrite rendered_history, markdowns_history, errors_history.
  rewrite rendered_assistant_block, markdowns_assistant_block, errors_assistant_block.
  split; [|split; [by rewrite last_snoc | by rewrite app_nil_r]].
  destruct (fragments evs) as [|f fs]; [done|].
  apply last_proper_prefixes.
Qed.

Lemma saved_reply_is_last_rendered_witness :
  let env := Sample.env Sample.hello (Some "hi") false in
  let w' := (main env fresh_world).2 in
  exists reply : string,
    last (rendered (ui_since fresh_world w')) = Some reply /\
    last (transcript w') = Some (Message "assistant" reply) /\
    markdowns (ui_since fresh_world w') = (content <$> transcript fresh_world) ++ ["hi"] /\
    errors (ui_since fresh_world w') = [].
Proof.
  apply (saved_reply_is_last_rendered
           (Sample.env Sample.hello (Some "hi") false) fresh_world "hi"
           [Sample.created; Sample.fragment "Hel"; Sample.created;
            Sample.fragment "lo"; completed]).
  - split; [reflexivity | split; [reflexivity | split; [reflexivity | discriminate]]].
  - reflexivity.
  - discriminate.
Defined.

(** ** What the endpoint is asked *)

Lemma main_outbox_cases (env : environment) (w : world) :
  outbox (main env w).2 = outbox w \/
  exists prompt, submits env prompt /\
    outbox (main env w).2 = outbox w ++ [request_for env w prompt].
Proof.
  destruct (main_cases env w)
    as [(Hf & H & ->)|[(H & ->)|[(H & Hc & ->)|[(H & Hc & Hp & ->)|(p & out & acts & Hs & _ & ->)]]]].
  - by left.
  - by left.
  - by left.
  - by left.
  - right. by exists p.
Qed.

Lemma main_asks (env : environment) (w : world) :
  conversation (transcript w) -> Forall asks (outbox w) ->
  Forall asks (outbox (main env w).2).
Proof.
  intros Hc Ho. destruct (main_outbox_cases env w) as [->|(p & Hs & ->)]; [done|].
  apply Forall_app. split; [done|]. apply Forall_cons_2; [|constructor].
  split; cbn [request_for rq_input].
  - constructor; [done|]. apply Hs.
  - exists p. by rewrite last_snoc.
Qed.

Lemma runs_asks (envs : list environment) (w : world) :
  conversation (transcript w) -> Forall asks (outbox w) ->
  Forall asks (outbox (runs envs w)).
Proof.
  revert w. induction envs as [|env envs IH]; intros w Hc Ho; [done|].
  rewrite runs_cons. apply IH; [by apply main_conversation | by apply main_asks].
Qed.

(** X16.  Every request sent in any sequence of runs from a fresh session
    carries a conversation that ends with a user message: the endpoint is
    never asked with an empty input, with an empty message, or with an
    assistant message last. *)
Theorem every_request_ends_with_a_prompt (envs : list environment) :
  Forall asks (outbox (runs envs fresh_world)).
Proof.
  apply runs_asks.
  - change (transcript fresh_world) with (@nil message). constructor.
  - change (outbox fresh_world) with (@nil request). constructor.
Qed.
